(** * wav-util / wav-look: a shallow embedding of the WAV header tools

    The repository holds two near-duplicate C programs:
    - [wav-look.c] reads a 44-byte WAV header, verifies its four tags,
      writes a half-speed copy ("sample.wav") and a copy with a silenced
      window ("silence.wav");
    - [wav-util.c] is the later clean-up of it: one output ("modified.wav"),
      no header change, no silencing.

    What both share (constants, the header struct, [verify_file]) is
    modelled once at top level; what differs lives in [Module WavLook] and
    [Module WavUtil].  The model comes first, then the sample data and
    vocabulary of the statements, then the properties.

    Modelling conventions.
    - [uint16_t], [uint32_t] and [int] values are [Z]; the wrap-around the
      C expression performs is written out ([to_uint32], [to_int]).
    - A [char]/[uint8_t] is a [Byte.byte]; a buffer is a [list byte]
      indexed with stdpp's lookup and insert.
    - [fread(&header, HEADER_SIZE, 1, f)] and [fwrite(&header, ...)] move
      the object representation of the struct.  The programs only make
      sense on the ABI WAV files are written for (little-endian, every
      scalar aligned to its own size), so that is the ABI modelled here:
      [sizeof] follows its padding rule and the object representation is
      the little-endian image of the fields in declaration order.
    - A stream read returns fewer bytes than asked only at the end of the
      file; a stream write returns fewer only when the device is full.
    - Signed overflow (the block counter, [pos]) wraps in two's complement;
      no claim below depends on a run that long.
    - [exit(EXIT_FAILURE)] ends the run; the model returns the state of the
      streams at that point together with the diagnostic.  An integer
      division by zero ends it too. *)

From Stdlib Require Import ZArith List Bool Lia.
From Stdlib.Strings Require Import String Byte.
From stdpp Require Import base list.
From Equations Require Import Equations.
From Equations.Prop Require Logic.
Import ListNotations.

#[local] Open Scope Z_scope.

(** The loops below are defined by well-founded recursion; their
    unfolding equations are proved without functional extensionality. *)
#[local] Unset Equations With Funext.

(** ** Machine integers and bytes *)

Definition to_uint32 (z : Z) : Z := z mod 2 ^ 32.
Definition to_uint16 (z : Z) : Z := z mod 2 ^ 16.

(** Two's-complement reading of the low 32 bits: the value an [int]
    expression holds on the modelled machine. *)
Definition to_int (z : Z) : Z := (z + 2 ^ 31) mod 2 ^ 32 - 2 ^ 31.

Definition is_uint32 (z : Z) : Prop := 0 <= z < 2 ^ 32.
Definition is_uint16 (z : Z) : Prop := 0 <= z < 2 ^ 16.

Definition Z_of_byte (b : byte) : Z := Z.of_N (Byte.to_N b).

Definition byte_of_Z (z : Z) : byte :=
  match Byte.of_N (Z.to_N (z mod 256)) with
  | Some b => b
  | None => x00
  end.

(** Little-endian image of the low [n] bytes of [v], and its inverse. *)
Fixpoint le_bytes (n : nat) (v : Z) : list byte :=
  match n with
  | O => []
  | S n' => byte_of_Z v :: le_bytes n' (v / 256)
  end.

Fixpoint le_value (bs : list byte) : Z :=
  match bs with
  | [] => 0
  | b :: bs' => Z_of_byte b + 256 * le_value bs'
  end.

(** ** Constants of the two programs *)

Definition ID_LEN : Z := 4.
Definition BLOCK : Z := 4096.
Definition MAX_BLOCKS : Z := 524288.
Definition BITS_PER_BYTE : Z := 8.

(** A string literal as it lies in memory: its characters and the
    terminating NUL. *)
Definition c_literal (s : string) : list byte := list_byte_of_string s ++ [x00].

Definition RIFF_ID : list byte := c_literal "RIFF".
Definition RIFF_FMT : list byte := c_literal "WAVE".
Definition FMT_ID : list byte := c_literal "fmt ".
Definition DATA_ID : list byte := c_literal "data".

(** ** The header struct *)

(** [char chunkID[ID_LEN]]: exactly four characters, no terminator. *)
Definition char4 : Type := byte * byte * byte * byte.

Definition chars (t : char4) : list byte :=
  let '(a, b, c, e) := t in [a; b; c; e].

Record riff_chunk := {
  r_chunkID : char4;
  r_chunkSize : Z;
  r_format : char4
}.

Record fmt_chunk := {
  f_chunkID : char4;
  f_chunkSize : Z;
  f_audioFormat : Z;
  f_numChannels : Z;
  f_sampleRate : Z;
  f_byteRate : Z;
  f_blockAlign : Z;
  f_bitsPerSample : Z
}.

Record data_chunk := {
  d_chunkID : char4;
  d_chunkSize : Z
}.

Record wav_header := {
  r : riff_chunk;
  f : fmt_chunk;
  d : data_chunk
}.

(** The values a [wav_header] object can hold: every numeric field within
    the range of its C type. *)
Record header_ok (h : wav_header) : Prop := {
  ok_r_chunkSize : is_uint32 (r_chunkSize (r h));
  ok_f_chunkSize : is_uint32 (f_chunkSize (f h));
  ok_f_audioFormat : is_uint16 (f_audioFormat (f h));
  ok_f_numChannels : is_uint16 (f_numChannels (f h));
  ok_f_sampleRate : is_uint32 (f_sampleRate (f h));
  ok_f_byteRate : is_uint32 (f_byteRate (f h));
  ok_f_blockAlign : is_uint16 (f_blockAlign (f h));
  ok_f_bitsPerSample : is_uint16 (f_bitsPerSample (f h));
  ok_d_chunkSize : is_uint32 (d_chunkSize (d h))
}.

(** *** Layout: [sizeof(wav_header)] *)

#[local] Set Warnings "-register-all".

Inductive ctype :=
| Tchar_array (n : Z)
| Tuint16
| Tuint32
| Tstruct (members : list ctype).

Fixpoint alignof (t : ctype) : Z :=
  match t with
  | Tchar_array _ => 1
  | Tuint16 => 2
  | Tuint32 => 4
  | Tstruct ms => fold_right (fun m a => Z.max (alignof m) a) 1 ms
  end.

(** Round [n] up to the next multiple of [a]. *)
Definition align_up (n a : Z) : Z := (n + a - 1) / a * a.

(** Each member is placed at the next offset that suits its alignment;
    the struct is padded at its end to a multiple of its own alignment. *)
Fixpoint sizeof (t : ctype) : Z :=
  match t with
  | Tchar_array n => n
  | Tuint16 => 2
  | Tuint32 => 4
  | Tstruct ms =>
      align_up
        (fold_left (fun off m => align_up off (alignof m) + sizeof m) ms 0)
        (fold_right (fun m a => Z.max (alignof m) a) 1 ms)
  end.

(** Offsets at which the scalar members (leaves) of [t] start when [t]
    itself starts at [base]. *)
Fixpoint leaf_offsets (base : Z) (t : ctype) : list Z :=
  match t with
  | Tstruct ms =>
      snd (fold_left
             (fun '(off, acc) m =>
                let start := align_up off (alignof m) in
                (start + sizeof m, acc ++ leaf_offsets (base + start) m))
             ms (0, []))
  | _ => [base]
  end.

(** Sum of the widths of the scalar members: the size the struct would
    have with no padding at all. *)
Fixpoint width_sum (t : ctype) : Z :=
  match t with
  | Tstruct ms => fold_right (fun m a => width_sum m + a) 0 ms
  | _ => sizeof t
  end.

Definition riff_chunk_t : ctype :=
  Tstruct [Tchar_array ID_LEN; Tuint32; Tchar_array ID_LEN].

Definition fmt_chunk_t : ctype :=
  Tstruct [Tchar_array ID_LEN; Tuint32; Tuint16; Tuint16;
           Tuint32; Tuint32; Tuint16; Tuint16].

Definition data_chunk_t : ctype :=
  Tstruct [Tchar_array ID_LEN; Tuint32].

Definition wav_header_t : ctype :=
  Tstruct [riff_chunk_t; fmt_chunk_t; data_chunk_t].

Definition HEADER_SIZE : Z := sizeof wav_header_t.

(** *** Object representation *)

Definition encode_riff (c : riff_chunk) : list byte :=
  chars (r_chunkID c) ++ le_bytes 4 (r_chunkSize c) ++ chars (r_format c).

Definition encode_fmt (c : fmt_chunk) : list byte :=
  chars (f_chunkID c) ++ le_bytes 4 (f_chunkSize c)
    ++ le_bytes 2 (f_audioFormat c) ++ le_bytes 2 (f_numChannels c)
    ++ le_bytes 4 (f_sampleRate c) ++ le_bytes 4 (f_byteRate c)
    ++ le_bytes 2 (f_blockAlign c) ++ le_bytes 2 (f_bitsPerSample c).

Definition encode_data (c : data_chunk) : list byte :=
  chars (d_chunkID c) ++ le_bytes 4 (d_chunkSize c).

(** The bytes [fwrite(&header, HEADER_SIZE, 1, f)] hands to the stream. *)
Definition encode (h : wav_header) : list byte :=
  encode_riff (r h) ++ encode_fmt (f h) ++ encode_data (d h).

Definition byte_at (bs : list byte) (o : nat) : byte := default x00 (bs !! o).

Definition char4_at (bs : list byte) (o : nat) : char4 :=
  (byte_at bs o, byte_at bs (o + 1), byte_at bs (o + 2), byte_at bs (o + 3)).

Definition uint_at (bs : list byte) (o w : nat) : Z :=
  le_value (take w (drop o bs)).

(** The header object after [fread(&header, HEADER_SIZE, 1, f)] delivered
    the bytes [bs]; [None] when the stream held fewer than one whole item
    ([fread] returns 0). *)
Definition decode (bs : list byte) : option wav_header :=
  if Z.of_nat (length bs) <? HEADER_SIZE then None
  else Some {|
    r := {| r_chunkID := char4_at bs 0;
            r_chunkSize := uint_at bs 4 4;
            r_format := char4_at bs 8 |};
    f := {| f_chunkID := char4_at bs 12;
            f_chunkSize := uint_at bs 16 4;
            f_audioFormat := uint_at bs 20 2;
            f_numChannels := uint_at bs 22 2;
            f_sampleRate := uint_at bs 24 4;
            f_byteRate := uint_at bs 28 4;
            f_blockAlign := uint_at bs 32 2;
            f_bitsPerSample := uint_at bs 34 2 |};
    d := {| d_chunkID := char4_at bs 36;
            d_chunkSize := uint_at bs 40 4 |}
  |}.

(** ** [strncmp] and [verify_file] *)

(** Character read by [strncmp]; a string that ends (its NUL included in
    the list) reads as NUL from there on. *)
Definition char_of (s : list byte) : Z :=
  match s with
  | [] => 0
  | c :: _ => Z_of_byte c
  end.

(** Compare at most [n] characters; stop at the first difference or at a
    NUL common to both.  The result is the difference of the two
    characters read as [unsigned char]. *)
Fixpoint strncmp (s1 s2 : list byte) (n : nat) : Z :=
  match n with
  | O => 0
  | S n' =>
      let c1 := char_of s1 in
      let c2 := char_of s2 in
      if negb (c1 =? c2) then c1 - c2
      else if c1 =? 0 then 0
      else strncmp (tail s1) (tail s2) n'
  end.

(** A C condition: any nonzero value is true. *)
Definition c_true (z : Z) : bool := negb (z =? 0).

(** Four independent checks, each adding one to [error]; the [printf]
    calls only write to the console and are left out. *)
Definition verify_file (input : wav_header) : Z :=
  let error := 0 in
  let error :=
    if c_true (strncmp (chars (r_chunkID (r input))) RIFF_ID (Z.to_nat ID_LEN))
    then error + 1 else error in
  let error :=
    if c_true (strncmp (chars (r_format (r input))) RIFF_FMT (Z.to_nat ID_LEN))
    then error + 1 else error in
  let error :=
    if c_true (strncmp (chars (f_chunkID (f input))) FMT_ID (Z.to_nat ID_LEN))
    then error + 1 else error in
  let error :=
    if c_true (strncmp (chars (d_chunkID (d input))) DATA_ID (Z.to_nat ID_LEN))
    then error + 1 else error in
  error.

(** ** Streams

    The input is a regular file opened for reading: the bytes not yet
    consumed.  An output file is what has been written so far together
    with the number of bytes the device still accepts; a write that asks
    for more is cut short there. *)

Record out_stream := {
  written : list byte;
  room : nat
}.

(** [fread(ptr, size, nmemb, stream)]: as many bytes as are left, up to
    [size * nmemb], land at the start of [ptr]; the count returned is in
    whole items.  Result: count, buffer, stream. *)
Definition fread (ptr : list byte) (size nmemb : nat) (stream : list byte)
  : nat * list byte * list byte :=
  let k := Nat.min (size * nmemb) (length stream) in
  (Nat.div k size, take k stream ++ drop k ptr, drop k stream).

(** [fwrite(ptr, size, nmemb, stream)]: result is the count of whole items
    accepted and the stream afterwards. *)
Definition fwrite (ptr : list byte) (size nmemb : nat) (stream : out_stream)
  : nat * out_stream :=
  let k := Nat.min (size * nmemb) (room stream) in
  (Nat.div k size,
   {| written := written stream ++ take k ptr; room := (room stream - k)%nat |}).

(** [memcpy(dst, src, n)] *)
Definition memcpy (dst src : list byte) (n : nat) : list byte :=
  take n src ++ drop n dst.

(** [calloc(n, 1)] *)
Definition calloc (n : nat) : list byte := replicate n x00.

(** [strcmp] on strings as they lie in memory. *)
Fixpoint strcmp (s1 s2 : list byte) : Z :=
  let c1 := char_of s1 in
  let c2 := char_of s2 in
  if negb (c1 =? c2) then c1 - c2
  else match s1 with
       | [] => 0
       | _ :: s1' => if c1 =? 0 then 0 else strcmp s1' (tail s2)
       end.

(** How a run ends when it does not reach [return EXIT_SUCCESS]: the
    diagnostic printed before [exit(EXIT_FAILURE)], with the stream it
    names and the count it prints, or the trap of an integer division by
    zero.  ([usage] and [too_many_arguments] go to [stdout].) *)
Inductive failure :=
| usage
| too_many_arguments
| open_failed (name : string)
| header_read_failed (header_read : nat)
| not_verified
| create_failed (name : string)
| header_write_failed (name : string) (bytes : nat)
| data_write_failed (name : string) (data_bytes : nat)
| division_by_zero.

(** What a run of [main] leaves behind: [None] for [EXIT_SUCCESS], and
    the output files that were created with their header, in order. *)
Record run := {
  status : option failure;
  outputs : list (string * out_stream)
}.

(** The header object is uninitialised before the read; its bytes are
    taken as zero, they are overwritten whenever the read succeeds. *)
Definition read_header (original : list byte)
  : nat * list byte * list byte :=
  fread (calloc (Z.to_nat HEADER_SIZE)) (Z.to_nat HEADER_SIZE) 1 original.

(** ** wav-look.c *)

Module WavLook.

Definition D_START : Z := 100.
Definition D_END : Z := 30.

Definition sample_name : string := "sample.wav".
Definition silence_name : string := "silence.wav".

(** [header.f.sampleRate /= 2] on a copy of the header. *)
Definition halve_sampleRate (header : wav_header) : wav_header :=
  {| r := r header;
     f := {| f_chunkID := f_chunkID (f header);
             f_chunkSize := f_chunkSize (f header);
             f_audioFormat := f_audioFormat (f header);
             f_numChannels := f_numChannels (f header);
             f_sampleRate := to_uint32 (f_sampleRate (f header) / 2);
             f_byteRate := f_byteRate (f header);
             f_blockAlign := f_blockAlign (f header);
             f_bitsPerSample := f_bitsPerSample (f header) |};
     d := d header |}.

(** [create_file]: the header is passed by value, so the halving for
    "sample.wav" stays local.  [fopen] is the file system's answer to
    [fopen(name, "w")]. *)
Definition create_file (fopen : string -> option out_stream)
    (name : string) (header : wav_header) : failure + out_stream :=
  let header :=
    if strcmp (c_literal name) (c_literal "sample.wav") =? 0
    then halve_sampleRate header else header in
  match fopen name with
  | None => inl (create_failed name)
  | Some fp =>
      let '(bytes, fp) := fwrite (encode header) (Z.to_nat HEADER_SIZE) 1 fp in
      if negb (bytes =? 1)%nat then inl (header_write_failed name bytes)
      else inr fp
  end.

(** The locals of [silence_section].  [bitsPerSample / BITS_PER_BYTE] is
    an [int] division; it is converted to unsigned for the division of the
    [uint32_t] chunk size.  The sums are unsigned 32-bit. *)
Definition bytes_per_sample (header : wav_header) : Z :=
  to_uint32 (Z.quot (f_bitsPerSample (f header)) BITS_PER_BYTE).

Definition num_samples (header : wav_header) : Z :=
  to_uint32 (d_chunkSize (d header) / bytes_per_sample header).

Definition dstart (header : wav_header) : Z :=
  to_uint32 (num_samples header / 2 + num_samples header / D_START).

Definition dend (header : wav_header) : Z :=
  to_uint32 (num_samples header / 2 + num_samples header / D_END).

(** [int pos = (block * BLOCK) + i] *)
Definition pos (block i : Z) : Z := to_int (block * BLOCK + i).

(** [(pos >= dstart) && (pos <= dend)]: [pos] is an [int], the bounds are
    [uint32_t], so [pos] is converted to unsigned for both comparisons. *)
Definition in_window (header : wav_header) (pos : Z) : bool :=
  (dstart header <=? to_uint32 pos) && (to_uint32 pos <=? dend header).

(** The [for] loop of [silence_section], [n] iterations left, at index
    [i].  The buffers the program passes hold [BLOCK] bytes, so every
    store is in range; on a shorter list the store does nothing. *)
Fixpoint silence_loop (n : nat) (i : Z) (data : list byte)
    (block : Z) (header : wav_header) : list byte :=
  match n with
  | O => data
  | S n' =>
      let data :=
        if in_window header (pos block i)
        then <[Z.to_nat i := x00]> data
        else data in
      silence_loop n' (i + 1) data block header
  end.

(** [None]: the divisor of [num_samples] is zero. *)
Definition silence_section (data : list byte) (block : Z)
    (header : wav_header) : option (list byte) :=
  if bytes_per_sample header =? 0 then None
  else Some (silence_loop (Z.to_nat BLOCK) 0 data block header).

(** The variables [write_data] works on. *)
Record copy_state := {
  original : list byte;
  sample : out_stream;
  silence : out_stream;
  data : list byte;
  silence_data : list byte;
  num_blocks : Z
}.

Inductive outcome :=
| returned (st : copy_state)
| exited (e : failure) (st : copy_state).

Inductive step :=
| continue (st : copy_state)
| stop (o : outcome).

(** One evaluation of the [while] condition and, when it holds, of the
    loop body. *)
Definition loop_body (header : wav_header) (st : copy_state) : step :=
  let '(bytes, data, original) :=
    fread (data st) 1 (Z.to_nat BLOCK) (original st) in
  if (0 <? bytes)%nat then
    let num_blocks := to_int (num_blocks st + 1) in
    let silence_data := memcpy (silence_data st) data (Z.to_nat BLOCK) in
    let st1 := {| original := original; sample := sample st;
                  silence := silence st; data := data;
                  silence_data := silence_data; num_blocks := num_blocks |} in
    match silence_section silence_data num_blocks header with
    | None => stop (exited division_by_zero st1)
    | Some silence_data =>
        let '(data_bytes, sample) := fwrite data 1 bytes (sample st) in
        let st2 := {| original := original; sample := sample;
                      silence := silence st; data := data;
                      silence_data := silence_data;
                      num_blocks := num_blocks |} in
        if negb (data_bytes =? bytes)%nat
        then stop (exited (data_write_failed "sample.wav" data_bytes) st2)
        else
          let '(data_bytes, silence) :=
            fwrite silence_data 1 bytes (silence st) in
          let st3 := {| original := original; sample := sample;
                        silence := silence; data := data;
                        silence_data := silence_data;
                        num_blocks := num_blocks |} in
          if negb (data_bytes =? bytes)%nat
          then stop (exited (data_write_failed "silence.wav" data_bytes) st3)
          else continue st3
    end
  else
    stop (returned {| original := original; sample := sample st;
                      silence := silence st; data := data;
                      silence_data := silence_data st;
                      num_blocks := num_blocks st |}).

Lemma look_loop_body_continue header st st' :
  loop_body header st = continue st' ->
  (length (original st') < length (original st))%nat.
Proof.
  unfold loop_body, fread.
  rewrite Nat.mul_1_l, Nat.div_1_r. cbv beta iota zeta.
  assert (Hk : (Nat.min (Z.to_nat BLOCK) (length (original st))
                <= length (original st))%nat) by apply Nat.le_min_r.
  revert Hk. generalize (Nat.min (Z.to_nat BLOCK) (length (original st))).
  intros k Hk. destruct (Nat.ltb_spec 0 k) as [Hpos|]; [|easy].
  destruct (silence_section _ _ _); [|easy].
  repeat (destruct (fwrite _ _ _ _); destruct (negb _); [easy|]).
  intros [= <-]. cbn [original]. rewrite length_drop. lia.
Qed.

#[local] Opaque loop_body.

(** The [while] loop: every pass that continues has consumed input. *)
Equations write_loop (header : wav_header) (st : copy_state) : outcome
  by wf (length (original st)) lt :=
  write_loop header st with Logic.inspect (loop_body header st) := {
    | @exist (continue st') Hb => write_loop header st';
    | @exist (stop o) _ => o }.
Next Obligation. eauto using look_loop_body_continue. Qed.

#[local] Transparent loop_body.

(** [write_data]: both buffers come zeroed from [calloc] (taken to
    succeed), the block counter starts at 0. *)
Definition write_data (header : wav_header) (original : list byte)
    (sample silence : out_stream) : outcome :=
  write_loop header
    {| original := original; sample := sample; silence := silence;
       data := calloc (Z.to_nat BLOCK);
       silence_data := calloc (Z.to_nat BLOCK);
       num_blocks := 0 |}.

(** [main] after its streams are named: [args] is [argv] without the
    program name, [fopen_r] and [fopen_w] are the file system's answers to
    [fopen(_, "rb")] and [fopen(_, "w")].  [print] writes to the console
    only. *)
Definition main (args : list string)
    (fopen_r : string -> option (list byte))
    (fopen_w : string -> option out_stream) : run :=
  match args with
  | [] => {| status := Some usage; outputs := [] |}
  | _ :: _ :: _ => {| status := Some too_many_arguments; outputs := [] |}
  | [path] =>
      match fopen_r path with
      | None => {| status := Some (open_failed path); outputs := [] |}
      | Some original =>
          let '(header_read, header_bytes, original) := read_header original in
          if (header_read <? 1)%nat
          then {| status := Some (header_read_failed header_read);
                  outputs := [] |}
          else
            match decode header_bytes with
            | None => {| status := Some (header_read_failed header_read);
                         outputs := [] |}
            | Some header =>
                if c_true (verify_file header)
                then {| status := Some not_verified; outputs := [] |}
                else
                  match create_file fopen_w sample_name header with
                  | inl e => {| status := Some e; outputs := [] |}
                  | inr sample =>
                      match create_file fopen_w silence_name header with
                      | inl e => {| status := Some e;
                                    outputs := [(sample_name, sample)] |}
                      | inr silence =>
                          match write_data header original sample silence with
                          | returned st =>
                              {| status := None;
                                 outputs :=
                                   [(sample_name, WavLook.sample st);
                                    (silence_name, WavLook.silence st)] |}
                          | exited e st =>
                              {| status := Some e;
                                 outputs :=
                                   [(sample_name, WavLook.sample st);
                                    (silence_name, WavLook.silence st)] |}
                          end
                      end
                  end
            end
      end
  end.

End WavLook.

(** ** wav-util.c *)

Module WavUtil.

Definition modified_name : string := "modified.wav".

(** [create_file]: the header goes out as it came in. *)
Definition create_file (fopen : string -> option out_stream)
    (name : string) (header : wav_header) : failure + out_stream :=
  match fopen name with
  | None => inl (create_failed name)
  | Some fp =>
      let '(bytes, fp) := fwrite (encode header) (Z.to_nat HEADER_SIZE) 1 fp in
      if negb (bytes =? 1)%nat then inl (header_write_failed name bytes)
      else inr fp
  end.

Record copy_state := {
  original : list byte;
  modified : out_stream;
  data : list byte;
  num_blocks : Z
}.

Inductive outcome :=
| returned (st : copy_state)
| exited (e : failure) (st : copy_state).

Inductive step :=
| continue (st : copy_state)
| stop (o : outcome).

Definition loop_body (header : wav_header) (st : copy_state) : step :=
  let '(bytes, data, original) :=
    fread (data st) 1 (Z.to_nat BLOCK) (original st) in
  if (0 <? bytes)%nat then
    let num_blocks := to_int (num_blocks st + 1) in
    let '(data_bytes, modified) := fwrite data 1 bytes (modified st) in
    let st1 := {| original := original; modified := modified;
                  data := data; num_blocks := num_blocks |} in
    if negb (data_bytes =? bytes)%nat
    then stop (exited (data_write_failed "modified.wav" data_bytes) st1)
    else continue st1
  else
    stop (returned {| original := original; modified := modified st;
                      data := data; num_blocks := num_blocks st |}).

Lemma util_loop_body_continue header st st' :
  loop_body header st = continue st' ->
  (length (original st') < length (original st))%nat.
Proof.
  unfold loop_body, fread.
  rewrite Nat.mul_1_l, Nat.div_1_r. cbv beta iota zeta.
  assert (Hk : (Nat.min (Z.to_nat BLOCK) (length (original st))
                <= length (original st))%nat) by apply Nat.le_min_r.
  revert Hk. generalize (Nat.min (Z.to_nat BLOCK) (length (original st))).
  intros k Hk. destruct (Nat.ltb_spec 0 k) as [Hpos|]; [|easy].
  destruct (fwrite _ _ _ _); destruct (negb _); [easy|].
  intros [= <-]. cbn [original]. rewrite length_drop. lia.
Qed.

#[local] Opaque loop_body.

(** The [while] loop, by recursion on the input left to read. *)
Equations write_loop (header : wav_header) (st : copy_state) : outcome
  by wf (length (original st)) lt :=
  write_loop header st with Logic.inspect (loop_body header st) := {
    | @exist (continue st') Hb => write_loop header st';
    | @exist (stop o) _ => o }.
Next Obligation. eauto using util_loop_body_continue. Qed.

#[local] Transparent loop_body.

(** [write_data]: the buffer comes zeroed from [calloc] (taken to
    succeed), the block counter starts at 0. *)
Definition write_data (header : wav_header) (original : list byte)
    (modified : out_stream) : outcome :=
  write_loop header
    {| original := original; modified := modified;
       data := calloc (Z.to_nat BLOCK); num_blocks := 0 |}.

(** [main]; the header is not edited between the read and the write. *)
Definition main (args : list string)
    (fopen_r : string -> option (list byte))
    (fopen_w : string -> option out_stream) : run :=
  match args with
  | [] => {| status := Some usage; outputs := [] |}
  | _ :: _ :: _ => {| status := Some too_many_arguments; outputs := [] |}
  | [path] =>
      match fopen_r path with
      | None => {| status := Some (open_failed path); outputs := [] |}
      | Some original =>
          let '(header_read, header_bytes, original) := read_header original in
          if (header_read <? 1)%nat
          then {| status := Some (header_read_failed header_read);
                  outputs := [] |}
          else
            match decode header_bytes with
            | None => {| status := Some (header_read_failed header_read);
                         outputs := [] |}
            | Some header =>
                if c_true (verify_file header)
                then {| status := Some not_verified; outputs := [] |}
                else
                  match create_file fopen_w modified_name header with
                  | inl e => {| status := Some e; outputs := [] |}
                  | inr modified =>
                      match write_data header original modified with
                      | returned st =>
                          {| status := None;
                             outputs :=
                               [(modified_name, WavUtil.modified st)] |}
                      | exited e st =>
                          {| status := Some e;
                             outputs :=
                               [(modified_name, WavUtil.modified st)] |}
                      end
                  end
            end
      end
  end.

End WavUtil.

(** * Vocabulary of the statements

    Sample headers and payloads, and the few notions the properties are
    phrased with. *)

Import WavLook.

(** Widths of the scalar members in declaration order. *)
Fixpoint leaf_widths (t : ctype) : list Z :=
  match t with
  | Tstruct ms => flat_map leaf_widths ms
  | _ => [sizeof t]
  end.

(** Offsets of consecutive fields of the given widths packed back to
    back from offset [base]. *)
Fixpoint packed_offsets (base : Z) (ws : list Z) : list Z :=
  match ws with
  | [] => []
  | w :: ws' => base :: packed_offsets (base + w) ws'
  end.

(** A canonical 16-bit mono 44.1 kHz header over a payload of [n] bytes. *)
Definition pcm_header (n : Z) : wav_header :=
  {| r := {| r_chunkID := ("R", "I", "F", "F")%byte;
             r_chunkSize := 36 + n;
             r_format := ("W", "A", "V", "E")%byte |};
     f := {| f_chunkID := ("f", "m", "t", " ")%byte;
             f_chunkSize := 16;
             f_audioFormat := 1;
             f_numChannels := 1;
             f_sampleRate := 44100;
             f_byteRate := 88200;
             f_blockAlign := 2;
             f_bitsPerSample := 16 |};
     d := {| d_chunkID := ("d", "a", "t", "a")%byte;
             d_chunkSize := n |} |}.

Definition tag_ok (t : char4) (lit : string) : Prop :=
  chars t = list_byte_of_string lit.

Definition is_tag (lit : string) : Prop :=
  length (list_byte_of_string lit) = 4%nat
  /\ Forall (fun c => c <> x00) (list_byte_of_string lit).

(** A header whose four tags are all wrong (upper/lower case swapped). *)
Definition bad_tags_header : wav_header :=
  {| r := {| r_chunkID := ("r", "i", "f", "f")%byte;
             r_chunkSize := 36;
             r_format := ("w", "a", "v", "e")%byte |};
     f := {| f_chunkID := ("F", "M", "T", " ")%byte;
             f_chunkSize := 16;
             f_audioFormat := 1;
             f_numChannels := 1;
             f_sampleRate := 44100;
             f_byteRate := 88200;
             f_blockAlign := 2;
             f_bitsPerSample := 16 |};
     d := {| d_chunkID := ("D", "A", "T", "A")%byte;
             d_chunkSize := 0 |} |}.

(** A header that passes [verify_file] and declares 4 bits per sample. *)
Definition four_bit_header : wav_header :=
  {| r := r (pcm_header 1000);
     f := {| f_chunkID := ("f", "m", "t", " ")%byte;
             f_chunkSize := 16;
             f_audioFormat := 1;
             f_numChannels := 1;
             f_sampleRate := 8000;
             f_byteRate := 4000;
             f_blockAlign := 1;
             f_bitsPerSample := 4 |};
     d := d (pcm_header 1000) |}.

(** What the silenced copy of [payload] is, when its first block is
    counted [first_block]: byte [o] is zeroed when
    [first_block * BLOCK + o] lies in the window. *)
Definition silenced (h : wav_header) (first_block : Z) (payload : list byte)
  : list byte :=
  imap (fun o b =>
          if in_window h (first_block * BLOCK + Z.of_nat o) then x00 else b)
       payload.

(** The fields [halve_sampleRate] leaves alone. *)
Definition same_but_sampleRate (h h' : wav_header) : Prop :=
  r h' = r h /\ d h' = d h
  /\ f_chunkID (f h') = f_chunkID (f h)
  /\ f_chunkSize (f h') = f_chunkSize (f h)
  /\ f_audioFormat (f h') = f_audioFormat (f h)
  /\ f_numChannels (f h') = f_numChannels (f h)
  /\ f_byteRate (f h') = f_byteRate (f h)
  /\ f_blockAlign (f h') = f_blockAlign (f h)
  /\ f_bitsPerSample (f h') = f_bitsPerSample (f h).

Definition fresh_file (n : Z) : out_stream :=
  {| written := []; room := Z.to_nat n |}.

(** A payload of three full blocks and 37 bytes. *)
Definition odd_payload : list byte := replicate (Z.to_nat (4096 * 3 + 37)) x01.

(** A state at the head of the loop with 100 bytes left to read. *)
Definition short_state (room_sample room_silence : nat) : copy_state :=
  {| original := replicate 100 x01;
     sample := {| written := []; room := room_sample |};
     silence := {| written := []; room := room_silence |};
     data := calloc (Z.to_nat BLOCK);
     silence_data := calloc (Z.to_nat BLOCK);
     num_blocks := 0 |}.

Definition short_state_util (room_modified : nat) : WavUtil.copy_state :=
  {| WavUtil.original := replicate 100 x01;
     WavUtil.modified := {| written := []; room := room_modified |};
     WavUtil.data := calloc (Z.to_nat BLOCK);
     WavUtil.num_blocks := 0 |}.

Definition demo_payload : list byte := replicate 100 x01.

Definition demo_fopen_r (path : string) : option (list byte) :=
  Some (encode (pcm_header 100) ++ demo_payload).

Definition demo_fopen_w (name : string) : option out_stream :=
  Some {| written := []; room := 200 |}.

Definition million : list byte := replicate (Z.to_nat 1000000) x01.

(** * Properties *)

(** ** Bytes and little-endian images *)

Lemma Z_of_byte_range (b : byte) : 0 <= Z_of_byte b < 256.
Proof.
  unfold Z_of_byte. pose proof (Byte.to_N_bounded b) as Hb.
  change (N.le (Byte.to_N b) 255) in Hb. lia.
Qed.

Lemma byte_of_Z_of_byte (b : byte) : byte_of_Z (Z_of_byte b) = b.
Proof.
  unfold byte_of_Z. rewrite Z.mod_small by apply Z_of_byte_range.
  unfold Z_of_byte. rewrite N2Z.id, Byte.of_to_N. reflexivity.
Qed.

Lemma Z_of_byte_of_Z (z : Z) : Z_of_byte (byte_of_Z z) = z mod 256.
Proof.
  unfold byte_of_Z, Z_of_byte.
  assert (Hr : 0 <= z mod 256 < 256) by (apply Z.mod_pos_bound; lia).
  destruct (Byte.of_N (Z.to_N (z mod 256))) as [b|] eqn:E.
  - apply Byte.to_of_N in E. rewrite E. lia.
  - apply Byte.of_N_None_iff in E. lia.
Qed.

Lemma Z_of_byte_inj (a b : byte) : Z_of_byte a = Z_of_byte b -> a = b.
Proof.
  intros H. rewrite <- (byte_of_Z_of_byte a), <- (byte_of_Z_of_byte b).
  now rewrite H.
Qed.

Lemma length_le_bytes (n : nat) (v : Z) : length (le_bytes n v) = n.
Proof. revert v. induction n as [|n IH]; intros v; cbn; [|rewrite IH]; reflexivity. Qed.

Lemma le_value_le_bytes (n : nat) (v : Z) :
  0 <= v < 256 ^ Z.of_nat n -> le_value (le_bytes n v) = v.
Proof.
  revert v. induction n as [|n IH]; intros v Hv.
  - cbn in *. lia.
  - cbn [le_bytes le_value]. rewrite Z_of_byte_of_Z.
    rewrite Nat2Z.inj_succ, Z.pow_succ_r in Hv by lia.
    rewrite IH.
    + pose proof (Z.div_mod v 256). lia.
    + split; [apply Z.div_pos; lia|]. apply Z.div_lt_upper_bound; lia.
Qed.

Lemma le_bytes_le_value (bs : list byte) :
  le_bytes (length bs) (le_value bs) = bs.
Proof.
  induction bs as [|b bs IH]; [reflexivity|].
  cbn [length le_bytes le_value].
  pose proof (Z_of_byte_range b) as Hb.
  assert (Hm : (Z_of_byte b + 256 * le_value bs) mod 256 = Z_of_byte b).
  { symmetry. apply Z.mod_unique_pos with (q := le_value bs); lia. }
  assert (Hd : (Z_of_byte b + 256 * le_value bs) / 256 = le_value bs).
  { symmetry. apply Z.div_unique_pos with (r := Z_of_byte b); lia. }
  assert (Hbyte : byte_of_Z (Z_of_byte b + 256 * le_value bs) = b).
  { apply Z_of_byte_inj. rewrite Z_of_byte_of_Z. exact Hm. }
  rewrite Hbyte, Hd, IH. reflexivity.
Qed.

Lemma le_value_range (bs : list byte) :
  0 <= le_value bs < 256 ^ Z.of_nat (length bs).
Proof.
  induction bs as [|b bs IH]; [cbn; lia|].
  cbn [length le_value]. rewrite Nat2Z.inj_succ, Z.pow_succ_r by lia.
  pose proof (Z_of_byte_range b). lia.
Qed.

(** ** The header: size, layout and round trip *)

Lemma length_chars (t : char4) : length (chars t) = 4%nat.
Proof. destruct t as [[[a b] c] e]. reflexivity. Qed.

Lemma length_encode (h : wav_header) : length (encode h) = 44%nat.
Proof.
  unfold encode, encode_riff, encode_fmt, encode_data.
  repeat rewrite length_app. repeat rewrite length_chars.
  repeat rewrite length_le_bytes. reflexivity.
Qed.

Lemma HEADER_SIZE_44 : HEADER_SIZE = 44.
Proof. reflexivity. Qed.

(** C8.  [encode h] is 44 bytes long for every header [h], and the size
    used for the one header read and write, [HEADER_SIZE =
    sizeof(wav_header)], is the sum of the field widths
    4+4+4 + 4+4+2+2+4+4+2+2 + 4+4 = 44: under the padding rule no member
    is moved, every scalar starts where the previous one ends. *)
Theorem header_size_is_structural :
  (forall h : wav_header, Z.of_nat (length (encode h)) = HEADER_SIZE)
  /\ HEADER_SIZE = 44
  /\ HEADER_SIZE = width_sum wav_header_t
  /\ leaf_widths wav_header_t = [4; 4; 4; 4; 4; 2; 2; 4; 4; 2; 2; 4; 4]
  /\ width_sum wav_header_t = 4+4+4 + (4+4+2+2+4+4+2+2) + (4+4)
  /\ leaf_offsets 0 wav_header_t
     = packed_offsets 0 (leaf_widths wav_header_t).
Proof.
  split; [|repeat split; reflexivity].
  intros h. rewrite length_encode. reflexivity.
Qed.

Lemma decode_encode_eq (h : wav_header) :
  header_ok h -> decode (encode h) = Some h.
Proof.
  intros [H1 H2 H3 H4 H5 H6 H7 H8 H9].
  destruct h as [[rid rsz rfm] [fid fsz faf fnc fsr fbr fba fbs] [did dsz]].
  destruct rid as [[[r0 r1] r2] r3], rfm as [[[w0 w1] w2] w3],
    fid as [[[f0 f1] f2] f3], did as [[[d0 d1] d2] d3].
  cbn [r f d r_chunkID r_chunkSize r_format f_chunkID f_chunkSize
       f_audioFormat f_numChannels f_sampleRate f_byteRate f_blockAlign
       f_bitsPerSample d_chunkID d_chunkSize] in *.
  unfold is_uint32, is_uint16 in *.
  unfold decode.
  rewrite length_encode. change (Z.of_nat 44 <? HEADER_SIZE) with false.
  cbv iota.
  unfold encode, encode_riff, encode_fmt, encode_data, chars.
  cbn [r f d r_chunkID r_chunkSize r_format f_chunkID f_chunkSize
       f_audioFormat f_numChannels f_sampleRate f_byteRate f_blockAlign
       f_bitsPerSample d_chunkID d_chunkSize le_bytes app].
  unfold char4_at, byte_at, uint_at.
  cbn [lookup list_lookup default Nat.add drop take skipn firstn id].
  repeat match goal with
  | |- context [le_value [byte_of_Z ?v; ?b1; ?b2; ?b3]] =>
      change [byte_of_Z v; b1; b2; b3] with (le_bytes 4 v);
      rewrite (le_value_le_bytes 4 v) by (change (256 ^ Z.of_nat 4) with (2 ^ 32); lia)
  | |- context [le_value [byte_of_Z ?v; ?b1]] =>
      change [byte_of_Z v; b1] with (le_bytes 2 v);
      rewrite (le_value_le_bytes 2 v) by (change (256 ^ Z.of_nat 2) with (2 ^ 16); lia)
  end.
  reflexivity.
Qed.

Lemma pcm_header_ok (n : Z) : 0 <= n < 2 ^ 32 - 36 -> header_ok (pcm_header n).
Proof. intros Hn. constructor; unfold is_uint32, is_uint16; cbn; lia. Qed.

(** C2.  Round trip: for every header value [h] (numeric fields within
    their C types), decoding the bytes produced by encoding [h] gives [h]
    back. *)
Theorem header_roundtrip (h : wav_header) :
  header_ok h -> decode (encode h) = Some h.
Proof. exact (decode_encode_eq h). Qed.

Lemma header_roundtrip_witness :
  header_ok (pcm_header 1000000)
  /\ decode (encode (pcm_header 1000000)) = Some (pcm_header 1000000).
Proof.
  assert (H : header_ok (pcm_header 1000000)).
  { constructor; unfold is_uint32, is_uint16; cbn; lia. }
  split; [exact H | exact (header_roundtrip _ H)].
Defined.

(** ** [verify_file] *)

Lemma Z_of_byte_x00 (c : byte) : Z_of_byte c = 0 -> c = x00.
Proof. intros H. apply Z_of_byte_inj. rewrite H. reflexivity. Qed.

(** On [n] characters of which the second string has no NUL, [strncmp]
    is zero exactly when the characters agree. *)
Lemma strncmp_zero_iff (s1 s2 rest : list byte) :
  length s1 = length s2 ->
  Forall (fun c => c <> x00) s2 ->
  strncmp s1 (s2 ++ rest) (length s1) = 0 <-> s1 = s2.
Proof.
  revert s2. induction s1 as [|a s1 IH]; intros [|b s2] Hlen Hnz;
    try discriminate Hlen.
  - cbn. tauto.
  - cbn [length strncmp app char_of tail].
    apply Forall_cons in Hnz as [Hb Hnz]. injection Hlen as Hlen.
    destruct (Z.eqb_spec (Z_of_byte a) (Z_of_byte b)) as [Hab|Hab]; cbn [negb].
    + apply Z_of_byte_inj in Hab as ->.
      destruct (Z.eqb_spec (Z_of_byte b) 0) as [H0|H0].
      * apply Z_of_byte_x00 in H0. contradiction.
      * rewrite (IH s2 Hlen Hnz). split; [now intros ->|now intros [= ->]].
    + split; [lia|]. intros [= -> _]. contradiction.
Qed.

Lemma is_tag_literals :
  is_tag "RIFF" /\ is_tag "WAVE" /\ is_tag "fmt " /\ is_tag "data".
Proof.
  unfold is_tag.
  repeat split; try reflexivity; vm_compute; repeat constructor; discriminate.
Qed.

Lemma check_tag_match (t : char4) (lit : string) :
  is_tag lit -> tag_ok t lit ->
  c_true (strncmp (chars t) (c_literal lit) (Z.to_nat ID_LEN)) = false.
Proof.
  intros [Hlen Hnz] Hok. unfold c_true, c_literal.
  change (Z.to_nat ID_LEN) with 4%nat. rewrite <- (length_chars t).
  apply negb_false_iff, Z.eqb_eq, strncmp_zero_iff; auto.
  now rewrite length_chars.
Qed.

Lemma check_tag_mismatch (t : char4) (lit : string) :
  is_tag lit -> ~ tag_ok t lit ->
  c_true (strncmp (chars t) (c_literal lit) (Z.to_nat ID_LEN)) = true.
Proof.
  intros [Hlen Hnz] Hbad. unfold c_true, c_literal.
  change (Z.to_nat ID_LEN) with 4%nat. rewrite <- (length_chars t).
  apply negb_true_iff, Z.eqb_neq. intros H0. apply Hbad.
  apply strncmp_zero_iff in H0; auto. now rewrite length_chars.
Qed.

(** C3.  When all four tags (RIFF id, RIFF format, fmt id, data id)
    differ from their expected four-byte literals, [verify_file] returns
    exactly 4: each check counts on its own, the first bad tag does not
    end the checking. *)
Theorem verify_file_all_wrong (h : wav_header) :
  ~ tag_ok (r_chunkID (r h)) "RIFF" ->
  ~ tag_ok (r_format (r h)) "WAVE" ->
  ~ tag_ok (f_chunkID (f h)) "fmt " ->
  ~ tag_ok (d_chunkID (d h)) "data" ->
  verify_file h = 4.
Proof.
  intros H1 H2 H3 H4.
  destruct is_tag_literals as (T1 & T2 & T3 & T4).
  unfold verify_file, RIFF_ID, RIFF_FMT, FMT_ID, DATA_ID.
  rewrite (check_tag_mismatch _ _ T1 H1), (check_tag_mismatch _ _ T2 H2),
    (check_tag_mismatch _ _ T3 H3), (check_tag_mismatch _ _ T4 H4).
  reflexivity.
Qed.

Lemma verify_file_all_wrong_witness :
  ~ tag_ok (r_chunkID (r bad_tags_header)) "RIFF"
  /\ ~ tag_ok (r_format (r bad_tags_header)) "WAVE"
  /\ ~ tag_ok (f_chunkID (f bad_tags_header)) "fmt "
  /\ ~ tag_ok (d_chunkID (d bad_tags_header)) "data"
  /\ verify_file bad_tags_header = 4.
Proof.
  assert (H1 : ~ tag_ok (r_chunkID (r bad_tags_header)) "RIFF")
    by (unfold tag_ok; cbn; discriminate).
  assert (H2 : ~ tag_ok (r_format (r bad_tags_header)) "WAVE")
    by (unfold tag_ok; cbn; discriminate).
  assert (H3 : ~ tag_ok (f_chunkID (f bad_tags_header)) "fmt ")
    by (unfold tag_ok; cbn; discriminate).
  assert (H4 : ~ tag_ok (d_chunkID (d bad_tags_header)) "data")
    by (unfold tag_ok; cbn; discriminate).
  repeat (split; [assumption|]).
  exact (verify_file_all_wrong bad_tags_header H1 H2 H3 H4).
Defined.

(** C4.  When the four tags are the literals "RIFF", "WAVE", "fmt " and
    "data", [verify_file] returns 0 whatever the numeric fields hold. *)
Theorem verify_file_all_right (h : wav_header) :
  tag_ok (r_chunkID (r h)) "RIFF" ->
  tag_ok (r_format (r h)) "WAVE" ->
  tag_ok (f_chunkID (f h)) "fmt " ->
  tag_ok (d_chunkID (d h)) "data" ->
  verify_file h = 0.
Proof.
  intros H1 H2 H3 H4.
  destruct is_tag_literals as (T1 & T2 & T3 & T4).
  unfold verify_file, RIFF_ID, RIFF_FMT, FMT_ID, DATA_ID.
  rewrite (check_tag_match _ _ T1 H1), (check_tag_match _ _ T2 H2),
    (check_tag_match _ _ T3 H3), (check_tag_match _ _ T4 H4).
  reflexivity.
Qed.

Lemma verify_file_all_right_witness :
  tag_ok (r_chunkID (r (pcm_header 1000000))) "RIFF"
  /\ tag_ok (r_format (r (pcm_header 1000000))) "WAVE"
  /\ tag_ok (f_chunkID (f (pcm_header 1000000))) "fmt "
  /\ tag_ok (d_chunkID (d (pcm_header 1000000))) "data"
  /\ verify_file (pcm_header 1000000) = 0.
Proof.
  assert (H1 : tag_ok (r_chunkID (r (pcm_header 1000000))) "RIFF")
    by reflexivity.
  assert (H2 : tag_ok (r_format (r (pcm_header 1000000))) "WAVE")
    by reflexivity.
  assert (H3 : tag_ok (f_chunkID (f (pcm_header 1000000))) "fmt ")
    by reflexivity.
  assert (H4 : tag_ok (d_chunkID (d (pcm_header 1000000))) "data")
    by reflexivity.
  repeat (split; [assumption|]).
  exact (verify_file_all_right (pcm_header 1000000) H1 H2 H3 H4).
Defined.

(** ** [silence_section] *)

Lemma length_silence_loop n i data block h :
  length (silence_loop n i data block h) = length data.
Proof.
  revert i data. induction n as [|n IH]; intros i data; [reflexivity|].
  cbn [silence_loop]. rewrite IH.
  destruct (in_window h (pos block i)); [apply length_insert|reflexivity].
Qed.

(** What the loop leaves at index [j]: zero where an iteration visited
    [j] and found its position in the window, the old byte elsewhere. *)
Lemma silence_loop_lookup n i data block h (j : nat) :
  0 <= i ->
  silence_loop n i data block h !! j =
    if (Z.to_nat i <=? j)%nat && (j <? Z.to_nat i + n)%nat
       && in_window h (pos block (Z.of_nat j))
    then (fun _ => x00) <$> data !! j
    else data !! j.
Proof.
  revert i data. induction n as [|n IH]; intros i data Hi.
  - cbn [silence_loop].
    destruct (Nat.leb_spec (Z.to_nat i) j), (Nat.ltb_spec j (Z.to_nat i + 0));
      cbn; try reflexivity; lia.
  - cbn [silence_loop]. rewrite IH by lia.
    replace (Z.to_nat (i + 1)) with (S (Z.to_nat i)) by lia.
    destruct (Nat.eq_dec j (Z.to_nat i)) as [->|Hne].
    + rewrite Z2Nat.id by lia.
      replace (S (Z.to_nat i) <=? Z.to_nat i)%nat with false
        by (symmetry; apply Nat.leb_gt; lia).
      replace (Z.to_nat i <=? Z.to_nat i)%nat with true
        by (symmetry; apply Nat.leb_le; lia).
      replace (Z.to_nat i <? Z.to_nat i + S n)%nat with true
        by (symmetry; apply Nat.ltb_lt; lia).
      cbn [andb]. destruct (in_window h (pos block i)); [|reflexivity].
      destruct (Nat.lt_ge_cases (Z.to_nat i) (length data)) as [Hlt|Hge].
      * rewrite list_lookup_insert_eq by exact Hlt.
        apply lookup_lt_is_Some in Hlt as [b ->]. reflexivity.
      * rewrite list_insert_ge by exact Hge.
        rewrite (lookup_ge_None_2 data _ Hge). reflexivity.
    + assert (Hdata :
        (if in_window h (pos block i)
         then <[Z.to_nat i := x00]> data else data) !! j = data !! j).
      { destruct (in_window h (pos block i)); [|reflexivity].
        apply list_lookup_insert_ne. lia. }
      rewrite Hdata.
      replace ((S (Z.to_nat i) <=? j)%nat && (j <? S (Z.to_nat i) + n)%nat)
        with ((Z.to_nat i <=? j)%nat && (j <? Z.to_nat i + S n)%nat);
        [reflexivity|].
      destruct (Nat.leb_spec (Z.to_nat i) j), (Nat.leb_spec (S (Z.to_nat i)) j),
        (Nat.ltb_spec j (Z.to_nat i + S n)), (Nat.ltb_spec j (S (Z.to_nat i) + n));
        cbn; try reflexivity; lia.
Qed.

Lemma silence_section_Some data block h :
  bytes_per_sample h <> 0 ->
  silence_section data block h
  = Some (silence_loop (Z.to_nat BLOCK) 0 data block h).
Proof.
  intros Hb. unfold silence_section.
  destruct (Z.eqb_spec (bytes_per_sample h) 0); [contradiction|reflexivity].
Qed.

Lemma in_window_spec h p :
  in_window h p = true <-> dstart h <= to_uint32 p <= dend h.
Proof. unfold in_window. rewrite andb_true_iff, !Z.leb_le. tauto. Qed.

Lemma bytes_per_sample_nonzero h :
  is_uint16 (f_bitsPerSample (f h)) -> 8 <= f_bitsPerSample (f h) ->
  bytes_per_sample h <> 0.
Proof.
  unfold bytes_per_sample, to_uint32, BITS_PER_BYTE, is_uint16.
  intros Hr H8. rewrite Z.quot_div_nonneg by lia.
  assert (1 <= f_bitsPerSample (f h) / 8 < 2 ^ 16).
  { split; [apply Z.div_le_lower_bound; lia|apply Z.div_lt_upper_bound; lia]. }
  rewrite Z.mod_small; lia.
Qed.

Lemma bytes_per_sample_zero h :
  0 <= f_bitsPerSample (f h) < 8 -> bytes_per_sample h = 0.
Proof.
  unfold bytes_per_sample, to_uint32, BITS_PER_BYTE. intros Hr.
  rewrite Z.quot_div_nonneg by lia. rewrite Z.div_small by lia. reflexivity.
Qed.

(** C9.  With [bitsPerSample >= 8] the quotient [bitsPerSample / 8] is
    nonzero, so the division that computes [num_samples] is defined and
    [silence_section] yields a block; and [verify_file] does not establish
    that precondition: a header can pass it (all four tags right) and
    still make the division trap. *)
Theorem num_samples_division_defined :
  (forall (h : wav_header) (data : list byte) (block : Z),
     header_ok h -> 8 <= f_bitsPerSample (f h) ->
     bytes_per_sample h <> 0
     /\ exists out, silence_section data block h = Some out)
  /\ (exists h : wav_header,
        header_ok h /\ verify_file h = 0
        /\ forall data block, silence_section data block h = None).
Proof.
  split.
  - intros h data block Hok H8.
    assert (Hb : bytes_per_sample h <> 0)
      by (apply bytes_per_sample_nonzero; [apply Hok|exact H8]).
    split; [exact Hb|]. eexists. apply silence_section_Some, Hb.
  - exists four_bit_header. split; [|split].
    + constructor; unfold is_uint32, is_uint16; cbn; lia.
    + reflexivity.
    + intros data block. unfold silence_section.
      rewrite bytes_per_sample_zero by (cbn; lia). reflexivity.
Qed.

Lemma num_samples_division_defined_witness :
  header_ok (pcm_header 1000000)
  /\ 8 <= f_bitsPerSample (f (pcm_header 1000000))
  /\ bytes_per_sample (pcm_header 1000000) <> 0
  /\ exists out,
       silence_section (calloc 4096) 1 (pcm_header 1000000) = Some out.
Proof.
  assert (Hok : header_ok (pcm_header 1000000))
    by (constructor; unfold is_uint32, is_uint16; cbn; lia).
  assert (H8 : 8 <= f_bitsPerSample (f (pcm_header 1000000))) by (cbn; lia).
  split; [exact Hok|]. split; [exact H8|].
  exact (proj1 num_samples_division_defined
           (pcm_header 1000000) (calloc 4096) 1 Hok H8).
Defined.

(** C10.  For every block, block index and header with a nonzero
    bytes-per-sample quotient, [silence_section] yields a block of the same
    length in which every byte is either zero or the input byte at that
    index, and every byte whose computed position [pos] lies outside the
    closed window [[dstart, dend]] is the input byte. *)
Theorem silence_section_frame (data : list byte) (block : Z) (h : wav_header) :
  bytes_per_sample h <> 0 ->
  exists out,
    silence_section data block h = Some out
    /\ length out = length data
    /\ forall (j : nat) (b : byte), data !! j = Some b ->
         (out !! j = Some x00 \/ out !! j = Some b)
         /\ (~ (dstart h <= to_uint32 (pos block (Z.of_nat j)) <= dend h) ->
             out !! j = Some b).
Proof.
  intros Hb. eexists. split; [apply silence_section_Some, Hb|].
  split; [apply length_silence_loop|].
  intros j b Hj. rewrite silence_loop_lookup by lia. rewrite Hj.
  destruct (in_window h (pos block (Z.of_nat j))) eqn:Hw.
  - split.
    + destruct (_ && _); cbn; auto.
    + intros Hout. apply in_window_spec in Hw. contradiction.
  - rewrite andb_false_r. auto.
Qed.

Lemma silence_section_frame_witness :
  bytes_per_sample (pcm_header 20000) <> 0
  /\ exists out,
       silence_section (repeat x01 4096) 1 (pcm_header 20000) = Some out
       /\ length out = length (repeat x01 4096)
       /\ forall (j : nat) (b : byte), repeat x01 4096 !! j = Some b ->
            (out !! j = Some x00 \/ out !! j = Some b)
            /\ (~ (dstart (pcm_header 20000)
                   <= to_uint32 (pos 1 (Z.of_nat j))
                   <= dend (pcm_header 20000)) ->
                out !! j = Some b).
Proof.
  assert (Hb : bytes_per_sample (pcm_header 20000) <> 0)
    by (vm_compute; discriminate).
  split; [exact Hb|].
  exact (silence_section_frame (repeat x01 4096) 1 (pcm_header 20000) Hb).
Defined.

(** ** The copy loops *)

Lemma fread_bytes (ptr : list byte) (n : nat) (stream : list byte) :
  fread ptr 1 n stream =
  (Nat.min n (length stream),
   take (Nat.min n (length stream)) stream
     ++ drop (Nat.min n (length stream)) ptr,
   drop (Nat.min n (length stream)) stream).
Proof. unfold fread. rewrite Nat.mul_1_l, Nat.div_1_r. reflexivity. Qed.

Lemma fwrite_bytes (ptr : list byte) (n : nat) (stream : out_stream) :
  fwrite ptr 1 n stream =
  (Nat.min n (room stream),
   {| written := written stream ++ take (Nat.min n (room stream)) ptr;
      room := (room stream - Nat.min n (room stream))%nat |}).
Proof. unfold fwrite. rewrite Nat.mul_1_l, Nat.div_1_r. reflexivity. Qed.

(** The block [fread] leaves at the start of the buffer is what a write
    of that many bytes sends out. *)
Lemma take_block (k : nat) (stream buf : list byte) :
  (k <= length stream)%nat ->
  take k (take k stream ++ drop k buf) = take k stream.
Proof.
  intros Hk. rewrite take_app_le by (rewrite length_take; lia).
  rewrite take_take. f_equal. lia.
Qed.

Module UtilFacts.
Import WavUtil.

Lemma util_write_loop_unfold header st :
  WavUtil.write_loop header st =
  match WavUtil.loop_body header st with
  | WavUtil.continue st' => WavUtil.write_loop header st'
  | WavUtil.stop o => o
  end.
Proof.
  apply (WavUtil.write_loop_elim
           (fun header st o =>
              o = match WavUtil.loop_body header st with
                  | WavUtil.continue st' => WavUtil.write_loop header st'
                  | WavUtil.stop o => o
                  end)).
  - intros h s s' Hb _ _. rewrite Hb. reflexivity.
  - intros h s o Hb _. rewrite Hb. reflexivity.
Qed.

(** The loop body with the two stream calls spelled out; [k] is the
    count [fread] returns. *)
Lemma util_loop_body_eq header st :
  let k := Nat.min (Z.to_nat BLOCK) (length (original st)) in
  let buf := take k (original st) ++ drop k (data st) in
  let w := Nat.min k (room (modified st)) in
  let st1 := {| original := drop k (original st);
                modified := {| written := written (modified st) ++ take w buf;
                               room := (room (modified st) - w)%nat |};
                data := buf;
                num_blocks := to_int (num_blocks st + 1) |} in
  loop_body header st =
  if (0 <? k)%nat then
    if negb (w =? k)%nat
    then stop (exited (data_write_failed "modified.wav" w) st1)
    else continue st1
  else stop (returned {| original := drop k (original st);
                         modified := modified st;
                         data := buf;
                         num_blocks := num_blocks st |}).
Proof.
  intros k buf w st1. unfold loop_body.
  rewrite fread_bytes. fold k. fold buf. cbv beta iota zeta.
  rewrite fwrite_bytes. fold w. reflexivity.
Qed.

(** With room for all that is left to read, the loop drains the input
    and appends exactly those bytes. *)
Lemma util_write_loop_returns header st :
  (length (original st) <= room (modified st))%nat ->
  exists st',
    write_loop header st = returned st'
    /\ original st' = []
    /\ written (modified st') = written (modified st) ++ original st
    /\ room (modified st')
       = (room (modified st) - length (original st))%nat.
Proof.
  apply (write_loop_elim
    (fun header st o =>
       (length (original st) <= room (modified st))%nat ->
       exists st',
         o = returned st'
         /\ original st' = []
         /\ written (modified st') = written (modified st) ++ original st
         /\ room (modified st')
            = (room (modified st) - length (original st))%nat)).
  - clear header st. intros header st st' Hb IH _ Hroom.
    rewrite util_loop_body_eq in Hb. cbv zeta in Hb.
    remember (Nat.min (Z.to_nat BLOCK) (length (original st))) as k eqn:Ek.
    assert (Hk : (k <= length (original st))%nat) by lia.
    destruct (0 <? k)%nat; [|discriminate].
    replace (Nat.min k (room (modified st))) with k in Hb by lia.
    rewrite Nat.eqb_refl in Hb. cbn [negb] in Hb. injection Hb as <-.
    cbn [original modified written room] in IH.
    rewrite length_drop in IH.
    destruct IH as (st2 & -> & H1 & H2 & H3); [lia|].
    exists st2. split; [reflexivity|]. split; [exact H1|]. split.
    + rewrite H2, take_block by exact Hk.
      rewrite <- app_assoc, take_drop. reflexivity.
    + rewrite H3. lia.
  - clear header st. intros header st o Hb _ Hroom.
    rewrite util_loop_body_eq in Hb. cbv zeta in Hb.
    remember (Nat.min (Z.to_nat BLOCK) (length (original st))) as k eqn:Ek.
    assert (Hk : (k <= length (original st))%nat) by lia.
    destruct (Nat.ltb_spec 0 k) as [Hpos|Hzero].
    + replace (Nat.min k (room (modified st))) with k in Hb by lia.
      rewrite Nat.eqb_refl in Hb. discriminate.
    + injection Hb as <-.
      assert (H0 : original st = []).
      { apply length_zero_iff_nil.
        assert (0 < Z.to_nat BLOCK)%nat by (unfold BLOCK; lia). lia. }
      eexists. split; [reflexivity|]. cbn [original modified].
      rewrite H0. cbn [length]. rewrite app_nil_r, drop_nil.
      repeat split. lia.
Qed.

(** A short write ends the loop in that pass. *)
Lemma short_write_modified header st :
  original st <> [] ->
  (room (modified st)
   < Nat.min (Z.to_nat BLOCK) (length (original st)))%nat ->
  exists st',
    write_loop header st
    = exited (data_write_failed "modified.wav" (room (modified st))) st'
    /\ written (modified st')
       = written (modified st) ++ take (room (modified st)) (original st)
    /\ original st'
       = drop (Nat.min (Z.to_nat BLOCK) (length (original st))) (original st)
    /\ num_blocks st' = to_int (num_blocks st + 1).
Proof.
  intros Hne Hshort.
  rewrite util_write_loop_unfold, util_loop_body_eq. cbv zeta.
  remember (Nat.min (Z.to_nat BLOCK) (length (original st))) as k eqn:Ek.
  replace (0 <? k)%nat with true by (symmetry; apply Nat.ltb_lt; lia).
  replace (Nat.min k (room (modified st))) with (room (modified st)) by lia.
  replace (room (modified st) =? k)%nat with false
    by (symmetry; apply Nat.eqb_neq; lia).
  cbn [negb]. eexists. split; [reflexivity|].
  cbn [original modified num_blocks written]. repeat split.
  f_equal. rewrite take_app_le by (rewrite length_take; lia).
  rewrite take_take. f_equal. lia.
Qed.

End UtilFacts.

(** *** Positions modulo 2^32 *)

Lemma to_int_eqm (z : Z) : to_uint32 (to_int z) = to_uint32 z.
Proof.
  unfold to_uint32, to_int.
  pose proof (Z.div_mod (z + 2 ^ 31) (2 ^ 32) ltac:(lia)) as Hdm.
  replace ((z + 2 ^ 31) mod 2 ^ 32 - 2 ^ 31)
    with (z + - ((z + 2 ^ 31) / 2 ^ 32) * 2 ^ 32) by lia.
  apply Z.mod_add. lia.
Qed.

Lemma to_uint32_block (a b c : Z) :
  to_uint32 a = to_uint32 b -> to_uint32 (a * BLOCK + c) = to_uint32 (b * BLOCK + c).
Proof.
  unfold to_uint32. intros H.
  rewrite (Z.add_mod (a * BLOCK)), (Z.add_mod (b * BLOCK)) by lia.
  rewrite (Z.mul_mod a), (Z.mul_mod b) by lia.
  rewrite H. reflexivity.
Qed.

Lemma in_window_eqm h p q :
  to_uint32 p = to_uint32 q -> in_window h p = in_window h q.
Proof. unfold in_window. intros ->. reflexivity. Qed.

(** The position computed for index [j] of the block counted
    [to_int (nb + 1)] is, modulo 2^32, [(nb + 1) * BLOCK + j]. *)
Lemma in_window_pos h nb j :
  in_window h (pos (to_int (nb + 1)) j) = in_window h ((nb + 1) * BLOCK + j).
Proof.
  apply in_window_eqm. unfold pos. rewrite to_int_eqm.
  apply to_uint32_block, to_int_eqm.
Qed.

Lemma in_window_next_block h nb j :
  in_window h ((to_int (nb + 1) + 1) * BLOCK + j)
  = in_window h ((nb + 1) * BLOCK + (BLOCK + j)).
Proof.
  apply in_window_eqm.
  replace ((to_int (nb + 1) + 1) * BLOCK + j)
    with (to_int (nb + 1) * BLOCK + (BLOCK + j)) by lia.
  apply to_uint32_block, to_int_eqm.
Qed.

Module LookFacts.

Lemma look_write_loop_unfold header st :
  write_loop header st =
  match loop_body header st with
  | continue st' => write_loop header st'
  | stop o => o
  end.
Proof.
  apply (write_loop_elim
           (fun header st o =>
              o = match loop_body header st with
                  | continue st' => write_loop header st'
                  | stop o => o
                  end)).
  - intros h s s' Hb _ _. rewrite Hb. reflexivity.
  - intros h s o Hb _. rewrite Hb. reflexivity.
Qed.

Lemma continue_inj st1 st2 : continue st1 = continue st2 -> st1 = st2.
Proof. intros H. congruence. Qed.

Lemma stop_inj o1 o2 : stop o1 = stop o2 -> o1 = o2.
Proof. intros H. congruence. Qed.

(** The loop body with the stream calls spelled out; [k] is the count
    [fread] returns, [w1] and [w2] the counts the two [fwrite] return. *)
Lemma look_loop_body_eq header st :
  let k := Nat.min (Z.to_nat BLOCK) (length (original st)) in
  let buf := take k (original st) ++ drop k (data st) in
  let nb := to_int (num_blocks st + 1) in
  let sbuf0 := memcpy (silence_data st) buf (Z.to_nat BLOCK) in
  let w1 := Nat.min k (room (sample st)) in
  let sample1 := {| written := written (sample st) ++ take w1 buf;
                    room := (room (sample st) - w1)%nat |} in
  loop_body header st =
  if (0 <? k)%nat then
    match silence_section sbuf0 nb header with
    | None =>
        stop (exited division_by_zero
                {| original := drop k (original st); sample := sample st;
                   silence := silence st; data := buf;
                   silence_data := sbuf0; num_blocks := nb |})
    | Some sbuf =>
        if negb (w1 =? k)%nat
        then stop (exited (data_write_failed "sample.wav" w1)
                     {| original := drop k (original st); sample := sample1;
                        silence := silence st; data := buf;
                        silence_data := sbuf; num_blocks := nb |})
        else
          let w2 := Nat.min k (room (silence st)) in
          let st3 :=
            {| original := drop k (original st); sample := sample1;
               silence := {| written := written (silence st) ++ take w2 sbuf;
                             room := (room (silence st) - w2)%nat |};
               data := buf; silence_data := sbuf; num_blocks := nb |} in
          if negb (w2 =? k)%nat
          then stop (exited (data_write_failed "silence.wav" w2) st3)
          else continue st3
    end
  else stop (returned {| original := drop k (original st);
                         sample := sample st; silence := silence st;
                         data := buf; silence_data := silence_data st;
                         num_blocks := num_blocks st |}).
Proof.
  intros k buf nb sbuf0 w1 sample1. unfold loop_body.
  rewrite fread_bytes. fold k. fold buf. cbv beta iota zeta.
  fold nb. fold sbuf0.
  destruct (0 <? k)%nat; [|reflexivity].
  destruct (silence_section sbuf0 nb header) as [sbuf|]; [|reflexivity].
  rewrite !fwrite_bytes. reflexivity.
Qed.

(** The first [k] bytes of the silenced copy of a freshly read block. *)
Lemma take_silence_loop h nb (k : nat) (stream buf sdata : list byte) :
  (k <= length stream)%nat -> (k <= Z.to_nat BLOCK)%nat ->
  length buf = Z.to_nat BLOCK -> length sdata = Z.to_nat BLOCK ->
  take k (silence_loop (Z.to_nat BLOCK) 0
            (memcpy sdata (take k stream ++ drop k buf) (Z.to_nat BLOCK))
            (to_int (nb + 1)) h)
  = silenced h (nb + 1) (take k stream).
Proof.
  intros Hk HkB Hbuf Hsdata.
  assert (Hlen : length (take k stream ++ drop k buf) = Z.to_nat BLOCK).
  { rewrite length_app, length_take, length_drop. lia. }
  assert (Hcopy : memcpy sdata (take k stream ++ drop k buf) (Z.to_nat BLOCK)
                  = take k stream ++ drop k buf).
  { unfold memcpy.
    rewrite (take_ge (take k stream ++ drop k buf)) by lia.
    rewrite (drop_ge sdata) by lia. apply app_nil_r. }
  rewrite Hcopy. apply list_eq. intros j. unfold silenced.
  rewrite list_lookup_imap.
  destruct (Nat.lt_ge_cases j k) as [Hj|Hj].
  - rewrite lookup_take_lt by exact Hj.
    rewrite silence_loop_lookup by lia.
    rewrite lookup_app_l by (rewrite length_take; lia).
    rewrite in_window_pos.
    change (Z.to_nat 0) with 0%nat.
    replace (0 <=? j)%nat with true by (symmetry; apply Nat.leb_le; lia).
    replace (j <? 0 + Z.to_nat BLOCK)%nat with true
      by (symmetry; apply Nat.ltb_lt; lia).
    cbn [andb].
    destruct (take k stream !! j) as [b|] eqn:Eb;
      destruct (in_window h ((nb + 1) * BLOCK + Z.of_nat j)); reflexivity.
  - rewrite lookup_take_ge by exact Hj.
    rewrite (lookup_ge_None_2 (take k stream)) by (rewrite length_take; lia).
    reflexivity.
Qed.

Lemma silenced_app h nb (l1 l2 : list byte) :
  (l2 <> [] -> length l1 = Z.to_nat BLOCK) ->
  silenced h (nb + 1) l1 ++ silenced h (to_int (nb + 1) + 1) l2
  = silenced h (nb + 1) (l1 ++ l2).
Proof.
  intros Hfull. unfold silenced. rewrite imap_app. f_equal.
  apply imap_ext. intros j b Hj. cbv beta.
  assert (Hl1 : length l1 = Z.to_nat BLOCK).
  { apply Hfull. intros ->. discriminate Hj. }
  rewrite in_window_next_block.
  replace (BLOCK + Z.of_nat j) with (Z.of_nat (length l1 + j)); [reflexivity|].
  rewrite Nat2Z.inj_add, Hl1. unfold BLOCK. lia.
Qed.

Lemma take_silenced h b (n : nat) (l : list byte) :
  take n (silenced h b l) = silenced h b (take n l).
Proof.
  apply list_eq. intros j. unfold silenced. rewrite list_lookup_imap.
  destruct (Nat.lt_ge_cases j n) as [Hj|Hj].
  - rewrite !lookup_take_lt by exact Hj. rewrite list_lookup_imap. reflexivity.
  - rewrite !lookup_take_ge by exact Hj. reflexivity.
Qed.

Lemma length_block_buffer (k : nat) (stream buf : list byte) :
  (k <= length stream)%nat -> (k <= Z.to_nat BLOCK)%nat ->
  length buf = Z.to_nat BLOCK ->
  length (take k stream ++ drop k buf) = Z.to_nat BLOCK.
Proof. intros. rewrite length_app, length_take, length_drop. lia. Qed.

Lemma length_memcpy (dst src : list byte) (n : nat) :
  length src = n -> length dst = n -> length (memcpy dst src n) = n.
Proof.
  intros Hs Hd. unfold memcpy. rewrite length_app, length_take, length_drop. lia.
Qed.

(** A pass of the loop with input left and room in both outputs: the
    block read goes unchanged to the sample stream and silenced to the
    silence stream, and the loop goes on. *)
Lemma loop_body_copies header st :
  bytes_per_sample header <> 0 ->
  length (data st) = Z.to_nat BLOCK ->
  length (silence_data st) = Z.to_nat BLOCK ->
  original st <> [] ->
  (Nat.min (Z.to_nat BLOCK) (length (original st)) <= room (sample st))%nat ->
  (Nat.min (Z.to_nat BLOCK) (length (original st)) <= room (silence st))%nat ->
  exists buf sbuf,
    length buf = Z.to_nat BLOCK /\ length sbuf = Z.to_nat BLOCK
    /\ loop_body header st =
       continue
         {| original :=
              drop (Nat.min (Z.to_nat BLOCK) (length (original st)))
                (original st);
            sample :=
              {| written :=
                   written (sample st)
                     ++ take (Nat.min (Z.to_nat BLOCK) (length (original st)))
                          (original st);
                 room :=
                   (room (sample st)
                    - Nat.min (Z.to_nat BLOCK) (length (original st)))%nat |};
            silence :=
              {| written :=
                   written (silence st)
                     ++ silenced header (num_blocks st + 1)
                          (take (Nat.min (Z.to_nat BLOCK)
                                   (length (original st)))
                             (original st));
                 room :=
                   (room (silence st)
                    - Nat.min (Z.to_nat BLOCK) (length (original st)))%nat |};
            data := buf;
            silence_data := sbuf;
            num_blocks := to_int (num_blocks st + 1) |}.
Proof.
  intros Hbps Hdata Hsdata Hne Hr1 Hr2.
  rewrite look_loop_body_eq. cbv zeta.
  remember (Nat.min (Z.to_nat BLOCK) (length (original st))) as k eqn:Ek.
  assert (Hk : (k <= length (original st))%nat) by lia.
  assert (HkB : (k <= Z.to_nat BLOCK)%nat) by lia.
  assert (Hlen : (0 < length (original st))%nat).
  { destruct (original st); [contradiction|cbn; lia]. }
  assert (HB : (0 < Z.to_nat BLOCK)%nat) by (unfold BLOCK; lia).
  replace (0 <? k)%nat with true by (symmetry; apply Nat.ltb_lt; lia).
  rewrite (silence_section_Some _ _ _ Hbps).
  replace (Nat.min k (room (sample st))) with k by lia.
  replace (Nat.min k (room (silence st))) with k by lia.
  rewrite Nat.eqb_refl. cbn [negb].
  rewrite take_block by exact Hk.
  rewrite take_silence_loop by assumption.
  eexists _, _. split; [|split; [|reflexivity]].
  - now apply length_block_buffer.
  - rewrite length_silence_loop.
    apply length_memcpy; [now apply length_block_buffer|assumption].
Qed.

(** A pass of the loop on exhausted input: [fread] returns 0 and
    [write_data] returns with the streams as they are. *)
Lemma loop_body_eof header st :
  original st = [] ->
  loop_body header st =
  stop (returned {| original := []; sample := sample st;
                    silence := silence st; data := data st;
                    silence_data := silence_data st;
                    num_blocks := num_blocks st |}).
Proof.
  intros H0. rewrite look_loop_body_eq. cbv zeta. rewrite H0.
  cbn [length]. rewrite Nat.min_0_r. cbn [Nat.ltb Nat.leb take drop app].
  reflexivity.
Qed.

(** With a nonzero bytes-per-sample quotient and room in both outputs
    for all that is left to read, the loop drains the input, appends it
    unchanged to the sample stream and silenced to the silence stream. *)
Lemma look_write_loop_returns header (n : nat) :
  bytes_per_sample header <> 0 ->
  forall st,
  length (original st) = n ->
  length (data st) = Z.to_nat BLOCK ->
  length (silence_data st) = Z.to_nat BLOCK ->
  (length (original st) <= room (sample st))%nat ->
  (length (original st) <= room (silence st))%nat ->
  exists st',
    write_loop header st = returned st'
    /\ original st' = []
    /\ written (sample st') = written (sample st) ++ original st
    /\ written (silence st')
       = written (silence st)
           ++ silenced header (num_blocks st + 1) (original st).
Proof.
  intros Hbps. induction (lt_wf n) as [n _ IH].
  intros st Hn Hdata Hsdata Hr1 Hr2. rewrite look_write_loop_unfold.
  destruct (original st) as [|c rest] eqn:Eorig.
  - rewrite (loop_body_eof header st Eorig).
    eexists. split; [reflexivity|]. cbn [original sample silence].
    unfold silenced. cbn [imap]. rewrite !app_nil_r. repeat split.
  - rewrite <- Eorig in *.
    assert (Hne : original st <> []) by (rewrite Eorig; discriminate).
    assert (Hpos : (0 < length (original st))%nat)
      by (rewrite Eorig; cbn; lia).
    assert (HB : (0 < Z.to_nat BLOCK)%nat) by (unfold BLOCK; lia).
    destruct (loop_body_copies header st Hbps Hdata Hsdata Hne)
      as (buf & sbuf & Hbuf & Hsbuf & ->); [lia|lia|].
    remember (Nat.min (Z.to_nat BLOCK) (length (original st))) as k eqn:Ek.
    match goal with |- context [write_loop header ?s] => set (st1 := s) end.
    destruct (IH (length (original st1))) with (st := st1)
      as (st2 & -> & H1 & H2 & H3).
    + subst st1. cbn [original]. rewrite length_drop. lia.
    + reflexivity.
    + exact Hbuf.
    + exact Hsbuf.
    + subst st1. cbn [original sample room]. rewrite length_drop. lia.
    + subst st1. cbn [original silence room]. rewrite length_drop. lia.
    + exists st2. split; [reflexivity|]. split; [exact H1|].
      subst st1. cbn [original sample silence written num_blocks] in H2, H3.
      split.
      * rewrite H2, <- app_assoc, take_drop. reflexivity.
      * rewrite H3, <- app_assoc, silenced_app, take_drop; [reflexivity|].
        intros Hrest. rewrite length_take.
        assert (length (drop k (original st)) <> 0)%nat
          by (intros H0; apply length_zero_iff_nil in H0; contradiction).
        rewrite length_drop in *. lia.
Qed.

(** A short write on the sample stream ends the loop in that pass. *)
Lemma short_write_sample header st :
  bytes_per_sample header <> 0 ->
  original st <> [] ->
  (room (sample st)
   < Nat.min (Z.to_nat BLOCK) (length (original st)))%nat ->
  exists st',
    write_loop header st
    = exited (data_write_failed "sample.wav" (room (sample st))) st'
    /\ written (sample st')
       = written (sample st) ++ take (room (sample st)) (original st)
    /\ silence st' = silence st
    /\ original st'
       = drop (Nat.min (Z.to_nat BLOCK) (length (original st))) (original st)
    /\ num_blocks st' = to_int (num_blocks st + 1).
Proof.
  intros Hbps Hne Hshort.
  rewrite look_write_loop_unfold, look_loop_body_eq. cbv zeta.
  remember (Nat.min (Z.to_nat BLOCK) (length (original st))) as k eqn:Ek.
  replace (0 <? k)%nat with true by (symmetry; apply Nat.ltb_lt; lia).
  rewrite (silence_section_Some _ _ _ Hbps).
  replace (Nat.min k (room (sample st))) with (room (sample st)) by lia.
  replace (room (sample st) =? k)%nat with false
    by (symmetry; apply Nat.eqb_neq; lia).
  cbn [negb]. eexists. split; [reflexivity|].
  cbn [original sample silence num_blocks written]. repeat split.
  f_equal. rewrite take_app_le by (rewrite length_take; lia).
  rewrite take_take. f_equal. lia.
Qed.

(** A short write on the silence stream, after the sample stream took
    the whole block, ends the loop in that pass. *)
Lemma short_write_silence header st :
  bytes_per_sample header <> 0 ->
  length (data st) = Z.to_nat BLOCK ->
  length (silence_data st) = Z.to_nat BLOCK ->
  original st <> [] ->
  (Nat.min (Z.to_nat BLOCK) (length (original st)) <= room (sample st))%nat ->
  (room (silence st)
   < Nat.min (Z.to_nat BLOCK) (length (original st)))%nat ->
  exists st',
    write_loop header st
    = exited (data_write_failed "silence.wav" (room (silence st))) st'
    /\ written (sample st')
       = written (sample st)
           ++ take (Nat.min (Z.to_nat BLOCK) (length (original st)))
                (original st)
    /\ written (silence st')
       = written (silence st)
           ++ take (room (silence st))
                (silenced header (num_blocks st + 1) (original st))
    /\ original st'
       = drop (Nat.min (Z.to_nat BLOCK) (length (original st))) (original st)
    /\ num_blocks st' = to_int (num_blocks st + 1).
Proof.
  intros Hbps Hdata Hsdata Hne Hr1 Hshort.
  rewrite look_write_loop_unfold, look_loop_body_eq. cbv zeta.
  remember (Nat.min (Z.to_nat BLOCK) (length (original st))) as k eqn:Ek.
  assert (Hk : (k <= length (original st))%nat) by lia.
  assert (HkB : (k <= Z.to_nat BLOCK)%nat) by lia.
  replace (0 <? k)%nat with true by (symmetry; apply Nat.ltb_lt; lia).
  rewrite (silence_section_Some _ _ _ Hbps).
  replace (Nat.min k (room (sample st))) with k by lia.
  rewrite Nat.eqb_refl. cbn [negb].
  replace (Nat.min k (room (silence st))) with (room (silence st)) by lia.
  replace (room (silence st) =? k)%nat with false
    by (symmetry; apply Nat.eqb_neq; lia).
  cbn [negb]. eexists. split; [reflexivity|].
  cbn [original sample silence num_blocks written]. repeat split.
  - rewrite take_block by exact Hk. reflexivity.
  - f_equal.
    pose proof (take_silence_loop header (num_blocks st) k (original st)
                  (data st) (silence_data st) Hk HkB Hdata Hsdata) as Eblk.
    remember (silence_loop _ _ _ _ _) as sbuf eqn:Esbuf.
    replace (take (room (silence st)) sbuf)
      with (take (room (silence st)) (take k sbuf))
      by (rewrite take_take; f_equal; lia).
    rewrite Eblk, !take_silenced, take_take. do 2 f_equal. lia.
Qed.

End LookFacts.

Lemma length_calloc (n : nat) : length (calloc n) = n.
Proof. apply length_replicate. Qed.

(** ** Pass-through copy *)

(** C5.  Pass-through copy is byte-exact for every payload, whatever its
    length is relative to the block size: with room in the output,
    [write_data] of wav-util.c reads until the input is exhausted and
    returns with exactly the payload appended to the output, so the last,
    partial block went out with its own length; the same holds for the
    sample stream of wav-look.c. *)
Theorem pass_through_copy_exact :
  (forall (header : wav_header) (payload : list byte) (modified : out_stream),
     (length payload <= room modified)%nat ->
     exists st',
       WavUtil.write_data header payload modified = WavUtil.returned st'
       /\ WavUtil.original st' = []
       /\ written (WavUtil.modified st') = written modified ++ payload
       /\ room (WavUtil.modified st')
          = (room modified - length payload)%nat)
  /\ (forall (header : wav_header) (payload : list byte)
             (sample silence : out_stream),
        bytes_per_sample header <> 0 ->
        (length payload <= room sample)%nat ->
        (length payload <= room silence)%nat ->
        exists st',
          WavLook.write_data header payload sample silence
          = WavLook.returned st'
          /\ WavLook.original st' = []
          /\ written (WavLook.sample st') = written sample ++ payload).
Proof.
  split.
  - intros header payload modified Hroom. unfold WavUtil.write_data.
    destruct (UtilFacts.util_write_loop_returns header
                {| WavUtil.original := payload; WavUtil.modified := modified;
                   WavUtil.data := calloc (Z.to_nat BLOCK);
                   WavUtil.num_blocks := 0 |} Hroom)
      as (st' & H0 & H1 & H2 & H3).
    exists st'. auto.
  - intros header payload sample silence Hbps Hr1 Hr2.
    unfold WavLook.write_data.
    destruct (LookFacts.look_write_loop_returns header (length payload) Hbps
                {| original := payload; sample := sample; silence := silence;
                   data := calloc (Z.to_nat BLOCK);
                   silence_data := calloc (Z.to_nat BLOCK);
                   num_blocks := 0 |})
      as (st' & H0 & H1 & H2 & H3);
      try apply length_calloc; try assumption; try reflexivity.
    exists st'. auto.
Qed.

Lemma pass_through_copy_exact_witness :
  (length odd_payload <= room (fresh_file 20000))%nat
  /\ exists st',
       WavUtil.write_data (pcm_header 12325) odd_payload (fresh_file 20000)
       = WavUtil.returned st'
       /\ WavUtil.original st' = []
       /\ written (WavUtil.modified st')
          = written (fresh_file 20000) ++ odd_payload
       /\ room (WavUtil.modified st')
          = (room (fresh_file 20000) - length odd_payload)%nat.
Proof.
  assert (H : (length odd_payload <= room (fresh_file 20000))%nat)
    by (apply Nat.leb_le; vm_compute; reflexivity).
  split; [exact H|].
  exact (proj1 pass_through_copy_exact (pcm_header 12325) odd_payload
           (fresh_file 20000) H).
Defined.

(** The run on three full blocks and 37 bytes, evaluated: four passes,
    12325 bytes out. *)
Example odd_payload_run :
  match WavUtil.write_data (pcm_header 12325) odd_payload (fresh_file 20000)
  with
  | WavUtil.returned st' =>
      (WavUtil.num_blocks st',
       Z.of_nat (length (written (WavUtil.modified st'))),
       Z.of_nat (room (WavUtil.modified st')))
  | WavUtil.exited _ _ => (0, 0, 0)
  end = (4, 4096 * 3 + 37, 20000 - (4096 * 3 + 37)).
Proof. vm_compute. reflexivity. Qed.

(** ** Short writes *)

(** C7.  A short write ends the copy in the pass where it happens.  In
    wav-look.c, when the sample stream accepts fewer bytes than the block
    holds, the run exits naming "sample.wav" and the count accepted: the
    silence stream, written after it, has not received the block, and the
    input has been read no further than this block.  When the sample
    stream takes the block and the silence stream falls short, the run
    exits naming "silence.wav" and its count, again with no further read.
    wav-util.c does the same for "modified.wav". *)
Theorem short_write_stops_copy :
  (forall header st,
     bytes_per_sample header <> 0 ->
     original st <> [] ->
     (room (sample st)
      < Nat.min (Z.to_nat BLOCK) (length (original st)))%nat ->
     exists st',
       write_loop header st
       = exited (data_write_failed "sample.wav" (room (sample st))) st'
       /\ written (sample st')
          = written (sample st) ++ take (room (sample st)) (original st)
       /\ silence st' = silence st
       /\ original st'
          = drop (Nat.min (Z.to_nat BLOCK) (length (original st)))
              (original st)
       /\ num_blocks st' = to_int (num_blocks st + 1))
  /\ (forall header st,
        bytes_per_sample header <> 0 ->
        length (data st) = Z.to_nat BLOCK ->
        length (silence_data st) = Z.to_nat BLOCK ->
        original st <> [] ->
        (Nat.min (Z.to_nat BLOCK) (length (original st))
         <= room (sample st))%nat ->
        (room (silence st)
         < Nat.min (Z.to_nat BLOCK) (length (original st)))%nat ->
        exists st',
          write_loop header st
          = exited (data_write_failed "silence.wav" (room (silence st))) st'
          /\ written (sample st')
             = written (sample st)
                 ++ take (Nat.min (Z.to_nat BLOCK) (length (original st)))
                      (original st)
          /\ written (silence st')
             = written (silence st)
                 ++ take (room (silence st))
                      (silenced header (num_blocks st + 1) (original st))
          /\ original st'
             = drop (Nat.min (Z.to_nat BLOCK) (length (original st)))
                 (original st)
          /\ num_blocks st' = to_int (num_blocks st + 1))
  /\ (forall header st,
        WavUtil.original st <> [] ->
        (room (WavUtil.modified st)
         < Nat.min (Z.to_nat BLOCK) (length (WavUtil.original st)))%nat ->
        exists st',
          WavUtil.write_loop header st
          = WavUtil.exited
              (data_write_failed "modified.wav" (room (WavUtil.modified st)))
              st'
          /\ written (WavUtil.modified st')
             = written (WavUtil.modified st)
                 ++ take (room (WavUtil.modified st)) (WavUtil.original st)
          /\ WavUtil.original st'
             = drop (Nat.min (Z.to_nat BLOCK) (length (WavUtil.original st)))
                 (WavUtil.original st)
          /\ WavUtil.num_blocks st' = to_int (WavUtil.num_blocks st + 1)).
Proof.
  split; [|split].
  - exact LookFacts.short_write_sample.
  - exact LookFacts.short_write_silence.
  - exact UtilFacts.short_write_modified.
Qed.

Lemma short_write_stops_copy_witness :
  (exists st',
     write_loop (pcm_header 100) (short_state 10 100)
     = exited (data_write_failed "sample.wav" 10) st'
     /\ written (sample st') = replicate 10 x01
     /\ silence st' = {| written := []; room := 100 |}
     /\ original st' = []
     /\ num_blocks st' = 1)
  /\ (exists st',
        write_loop (pcm_header 100) (short_state 100 10)
        = exited (data_write_failed "silence.wav" 10) st'
        /\ written (sample st') = replicate 100 x01
        /\ length (written (silence st')) = 10%nat
        /\ original st' = []
        /\ num_blocks st' = 1)
  /\ (exists st',
        WavUtil.write_loop (pcm_header 100) (short_state_util 10)
        = WavUtil.exited (data_write_failed "modified.wav" 10) st'
        /\ written (WavUtil.modified st') = replicate 10 x01
        /\ WavUtil.original st' = []
        /\ WavUtil.num_blocks st' = 1).
Proof.
  assert (Hbps : bytes_per_sample (pcm_header 100) <> 0)
    by (vm_compute; discriminate).
  assert (Hne : replicate 100 x01 <> []) by discriminate.
  assert (Hlen : length (calloc (Z.to_nat BLOCK)) = Z.to_nat BLOCK)
    by (vm_compute; reflexivity).
  assert (Hlt : (10 < Nat.min (Z.to_nat BLOCK) (length (replicate 100 x01)))%nat)
    by (apply Nat.ltb_lt; vm_compute; reflexivity).
  assert (Hle : (Nat.min (Z.to_nat BLOCK) (length (replicate 100 x01)) <= 100)%nat)
    by (apply Nat.leb_le; vm_compute; reflexivity).
  destruct short_write_stops_copy as (Hsample & Hsilence & Hmodified).
  split; [|split].
  - destruct (Hsample (pcm_header 100) (short_state 10 100) Hbps Hne Hlt)
      as (st' & H0 & H1 & H2 & H3 & H4).
    exists st'. rewrite H0, H1, H2, H3, H4. repeat split.
  - destruct (Hsilence (pcm_header 100) (short_state 100 10)
                Hbps Hlen Hlen Hne Hle Hlt)
      as (st' & H0 & H1 & H2 & H3 & H4).
    exists st'. rewrite H0, H1, H2, H3, H4. repeat split.
  - destruct (Hmodified (pcm_header 100) (short_state_util 10) Hne Hlt)
      as (st' & H0 & H1 & H2 & H3).
    exists st'. rewrite H0, H1, H2, H3. repeat split.
Defined.

(** ** Header files: [create_file] and [main] *)

Lemma fwrite_header (h : wav_header) (fp : out_stream) :
  (44 <= room fp)%nat ->
  fwrite (encode h) (Z.to_nat HEADER_SIZE) 1 fp
  = (1%nat, {| written := written fp ++ encode h;
               room := (room fp - 44)%nat |}).
Proof.
  intros Hroom. unfold fwrite. change (Z.to_nat HEADER_SIZE) with 44%nat.
  rewrite Nat.mul_1_r. replace (Nat.min 44 (room fp)) with 44%nat by lia.
  rewrite take_ge by (rewrite length_encode; lia). reflexivity.
Qed.

Lemma create_file_sample fopen (h : wav_header) (fp : out_stream) :
  fopen sample_name = Some fp -> (44 <= room fp)%nat ->
  create_file fopen sample_name h
  = inr {| written := written fp ++ encode (halve_sampleRate h);
           room := (room fp - 44)%nat |}.
Proof.
  intros Hopen Hroom. unfold create_file.
  change (strcmp (c_literal sample_name) (c_literal "sample.wav") =? 0)
    with true.
  cbv iota. rewrite Hopen, fwrite_header by exact Hroom. reflexivity.
Qed.

Lemma create_file_silence fopen (h : wav_header) (fp : out_stream) :
  fopen silence_name = Some fp -> (44 <= room fp)%nat ->
  create_file fopen silence_name h
  = inr {| written := written fp ++ encode h; room := (room fp - 44)%nat |}.
Proof.
  intros Hopen Hroom. unfold create_file.
  change (strcmp (c_literal silence_name) (c_literal "sample.wav") =? 0)
    with false.
  cbv iota. rewrite Hopen, fwrite_header by exact Hroom. reflexivity.
Qed.

Lemma read_header_encode (h : wav_header) (payload : list byte) :
  read_header (encode h ++ payload) = (1%nat, encode h, payload).
Proof.
  unfold read_header, fread. change (Z.to_nat HEADER_SIZE) with 44%nat.
  rewrite Nat.mul_1_r, length_app, length_encode.
  replace (Nat.min 44 (44 + length payload)) with 44%nat by lia.
  rewrite take_app_length' by (symmetry; apply length_encode).
  rewrite drop_app_length' by (symmetry; apply length_encode).
  rewrite drop_ge by (rewrite length_calloc; lia).
  rewrite app_nil_r. reflexivity.
Qed.

Lemma halve_sampleRate_frame (h : wav_header) :
  same_but_sampleRate h (halve_sampleRate h).
Proof. unfold same_but_sampleRate. repeat split. Qed.

Lemma halve_44100 (h : wav_header) :
  f_sampleRate (f h) = 44100 -> f_sampleRate (f (halve_sampleRate h)) = 22050.
Proof. intros H. cbn [halve_sampleRate f f_sampleRate]. rewrite H. reflexivity. Qed.

(** C6.  Half-speed copy.  For a header [h] with [sampleRate = 44100],
    [create_file] for "sample.wav" writes a header [h'] with
    [sampleRate = 22050] and every other field equal to that of [h]; and
    a whole run of [main] on a file made of [h] and a payload leaves in
    "sample.wav" that header followed by the payload, unchanged. *)
Theorem half_speed_copy :
  (forall (h : wav_header) fopen (fp : out_stream),
     f_sampleRate (f h) = 44100 ->
     fopen sample_name = Some fp -> (44 <= room fp)%nat ->
     exists h',
       create_file fopen sample_name h
       = inr {| written := written fp ++ encode h';
                room := (room fp - 44)%nat |}
       /\ f_sampleRate (f h') = 22050
       /\ same_but_sampleRate h h')
  /\ (forall (h : wav_header) (payload : list byte) (path : string)
             fopen_r fopen_w (fs fl : out_stream),
        header_ok h -> verify_file h = 0 ->
        f_sampleRate (f h) = 44100 -> 8 <= f_bitsPerSample (f h) ->
        fopen_r path = Some (encode h ++ payload) ->
        fopen_w sample_name = Some fs -> fopen_w silence_name = Some fl ->
        (44 + length payload <= room fs)%nat ->
        (44 + length payload <= room fl)%nat ->
        exists h' s1 s2,
          main [path] fopen_r fopen_w
          = {| status := None;
               outputs := [(sample_name, s1); (silence_name, s2)] |}
          /\ written s1 = written fs ++ encode h' ++ payload
          /\ f_sampleRate (f h') = 22050
          /\ same_but_sampleRate h h').
Proof.
  split.
  - intros h fopen fp Hsr Hopen Hroom. exists (halve_sampleRate h).
    split; [now apply create_file_sample|].
    split; [now apply halve_44100|apply halve_sampleRate_frame].
  - intros h payload path fopen_r fopen_w fs fl
      Hok Hver Hsr H8 Hr Hws Hwl Hroom1 Hroom2.
    assert (Hbps : bytes_per_sample h <> 0)
      by (apply bytes_per_sample_nonzero; [apply Hok|exact H8]).
    unfold main. rewrite Hr, read_header_encode. cbv iota beta.
    change (1 <? 1)%nat with false. cbv iota.
    rewrite (decode_encode_eq h Hok), Hver.
    change (c_true 0) with false. cbv iota.
    rewrite (create_file_sample fopen_w h fs Hws) by lia.
    rewrite (create_file_silence fopen_w h fl Hwl) by lia.
    unfold write_data.
    match goal with |- context [write_loop h ?s] => set (st0 := s) end.
    destruct (LookFacts.look_write_loop_returns h (length payload) Hbps st0)
      as (st' & -> & H1 & H2 & H3);
      subst st0; cbn [original sample silence data silence_data room];
      try apply length_calloc; try reflexivity; try lia.
    cbn [original sample written] in H2.
    exists (halve_sampleRate h), (sample st'), (silence st').
    split; [reflexivity|]. split; [rewrite H2, <- app_assoc; reflexivity|].
    split; [now apply halve_44100|apply halve_sampleRate_frame].
Qed.

Lemma half_speed_copy_witness :
  header_ok (pcm_header 100)
  /\ verify_file (pcm_header 100) = 0
  /\ f_sampleRate (f (pcm_header 100)) = 44100
  /\ 8 <= f_bitsPerSample (f (pcm_header 100))
  /\ (44 + length demo_payload <= 200)%nat
  /\ exists h' s1 s2,
       main ["in.wav"%string] demo_fopen_r demo_fopen_w
       = {| status := None;
            outputs := [(sample_name, s1); (silence_name, s2)] |}
       /\ written s1 = [] ++ encode h' ++ demo_payload
       /\ f_sampleRate (f h') = 22050
       /\ same_but_sampleRate (pcm_header 100) h'.
Proof.
  assert (Hok : header_ok (pcm_header 100))
    by (constructor; unfold is_uint32, is_uint16; cbn; lia).
  assert (Hver : verify_file (pcm_header 100) = 0) by reflexivity.
  assert (Hsr : f_sampleRate (f (pcm_header 100)) = 44100) by reflexivity.
  assert (H8 : 8 <= f_bitsPerSample (f (pcm_header 100))) by (cbn; lia).
  assert (Hroom : (44 + length demo_payload <= 200)%nat)
    by (apply Nat.leb_le; vm_compute; reflexivity).
  repeat (split; [assumption|]).
  exact (proj2 half_speed_copy (pcm_header 100) demo_payload "in.wav"%string
           demo_fopen_r demo_fopen_w
           {| written := []; room := 200 |} {| written := []; room := 200 |}
           Hok Hver Hsr H8 eq_refl eq_refl eq_refl Hroom Hroom).
Defined.

(** ** The silence window on a one-million-byte payload *)

(** Over a whole run, byte [o] of the payload reaches the silence stream
    zeroed exactly when [BLOCK + o] lies in the window: the first block is
    counted 1, so the position computed for payload offset [o] is
    [o + BLOCK]. *)
Lemma write_data_silenced header (payload : list byte)
    (sample silence : out_stream) :
  bytes_per_sample header <> 0 ->
  (length payload <= room sample)%nat ->
  (length payload <= room silence)%nat ->
  exists st',
    write_data header payload sample silence = returned st'
    /\ written (WavLook.sample st') = written sample ++ payload
    /\ written (WavLook.silence st')
       = written silence ++ silenced header 1 payload.
Proof.
  intros Hbps Hr1 Hr2. unfold write_data.
  destruct (LookFacts.look_write_loop_returns header (length payload) Hbps
              {| original := payload; sample := sample; silence := silence;
                 data := calloc (Z.to_nat BLOCK);
                 silence_data := calloc (Z.to_nat BLOCK);
                 num_blocks := 0 |})
    as (st' & H0 & H1 & H2 & H3);
    try apply length_calloc; try assumption; try reflexivity.
  exists st'. auto.
Qed.

Lemma silenced_lookup h b (payload : list byte) (o : nat) (c : byte) :
  payload !! o = Some c ->
  silenced h b payload !! o
  = Some (if in_window h (b * BLOCK + Z.of_nat o) then x00 else c).
Proof.
  intros Ho. unfold silenced. rewrite list_lookup_imap, Ho. reflexivity.
Qed.

Lemma window_of_million :
  dstart (pcm_header 1000000) = 255000 /\ dend (pcm_header 1000000) = 266666.
Proof. split; reflexivity. Qed.

(** On the million-byte payload, payload offset [o] is in the window of
    computed positions exactly when [250904 <= o <= 262570]. *)
Lemma in_window_million (o : Z) :
  0 <= o < 1000000 ->
  in_window (pcm_header 1000000) (1 * BLOCK + o)
  = (250904 <=? o) && (o <=? 262570).
Proof.
  intros Ho. unfold in_window. destruct window_of_million as [-> ->].
  unfold to_uint32, BLOCK. rewrite Z.mod_small by lia.
  destruct (Z.leb_spec 255000 (1 * 4096 + o)), (Z.leb_spec (1 * 4096 + o) 266666),
    (Z.leb_spec 250904 o), (Z.leb_spec o 262570); cbn; try reflexivity; lia.
Qed.

(** C1, evaluated on the code.  With [dataChunkSize = 1,000,000] and
    [bitsPerSample = 16] the window is [[255000, 266666]] and the
    pass-through output is the payload; but the silenced output is zero at
    payload offsets [[250904, 262570]] and nowhere else, one block (4096
    bytes) before the offsets the window names.  In particular the byte at
    payload offset 254999 is zeroed and the byte at offset 266666 is
    not. *)
Theorem silence_window_scenario :
  exists st',
    write_data (pcm_header 1000000) million
      (fresh_file 1000000) (fresh_file 1000000)
    = returned st'
    /\ dstart (pcm_header 1000000) = 255000
    /\ dend (pcm_header 1000000) = 266666
    /\ written (sample st') = million
    /\ (forall o : Z, 0 <= o < 1000000 ->
          written (silence st') !! Z.to_nat o
          = Some (if (250904 <=? o) && (o <=? 262570) then x00 else x01))
    /\ written (silence st') !! Z.to_nat 254999 = Some x00
    /\ written (silence st') !! Z.to_nat 266666 = Some x01
    /\ written (silence st') !! Z.to_nat 266667 = Some x01.
Proof.
  assert (Hlen : length million = Z.to_nat 1000000)
    by apply length_replicate.
  destruct (write_data_silenced (pcm_header 1000000) million
              (fresh_file 1000000) (fresh_file 1000000))
    as (st' & H0 & H1 & H2).
  { vm_compute. discriminate. }
  { rewrite Hlen. apply Nat.le_refl. }
  { rewrite Hlen. apply Nat.le_refl. }
  cbn [fresh_file written app] in H1, H2.
  assert (Hall : forall o : Z, 0 <= o < 1000000 ->
            written (silence st') !! Z.to_nat o
            = Some (if (250904 <=? o) && (o <=? 262570) then x00 else x01)).
  { intros o Ho. rewrite H2.
    rewrite (silenced_lookup _ _ _ _ x01)
      by (apply lookup_replicate_2; lia).
    rewrite Z2Nat.id by lia. rewrite in_window_million by exact Ho.
    reflexivity. }
  exists st'. split; [exact H0|].
  destruct window_of_million as [Hs He].
  split; [exact Hs|]. split; [exact He|]. split; [exact H1|].
  split; [exact Hall|].
  split; [|split].
  - rewrite (Hall 254999) by lia. reflexivity.
  - rewrite (Hall 266666) by lia. reflexivity.
  - rewrite (Hall 266667) by lia. reflexivity.
Qed.

(** * Further properties of the two programs *)

(** ** The header read from a file *)

(** Any 44 bytes are the image of a header: reading them gives a header
    whose fields are within their C types, and writing that header gives
    the same 44 bytes back.  Bytes after the 44th play no part. *)
Lemma decode_spec (bs : list byte) :
  (44 <= length bs)%nat ->
  exists h,
    decode bs = Some h /\ decode (take 44 bs) = Some h
    /\ header_ok h /\ encode h = take 44 bs.
Proof.
  intros Hlen.
  do 44 (destruct bs as [|? bs]; [cbn in Hlen; lia|]).
  clear Hlen. eexists. split; [|split; [|split]].
  - unfold decode.
    replace (Z.of_nat (length _) <? HEADER_SIZE) with false; [reflexivity|].
    symmetry. apply Z.ltb_ge. rewrite HEADER_SIZE_44. cbn [length]. lia.
  - reflexivity.
  - unfold uint_at.
    cbn [drop take skipn firstn].
    constructor;
      cbn [r f d r_chunkSize f_chunkSize f_audioFormat f_numChannels
           f_sampleRate f_byteRate f_blockAlign f_bitsPerSample d_chunkSize];
      match goal with
      | |- is_uint32 (le_value ?l) => apply (le_value_range l)
      | |- is_uint16 (le_value ?l) => apply (le_value_range l)
      end.
  - unfold encode, encode_riff, encode_fmt, encode_data, uint_at, char4_at,
      byte_at, chars.
    cbn [r f d r_chunkID r_chunkSize r_format f_chunkID f_chunkSize
         f_audioFormat f_numChannels f_sampleRate f_byteRate f_blockAlign
         f_bitsPerSample d_chunkID d_chunkSize
         lookup list_lookup default Nat.add drop take skipn firstn].
    rewrite ?take_0.
    repeat match goal with
    | |- context [le_bytes 4 (le_value [?a; ?b; ?c; ?e])] =>
        change (le_bytes 4 (le_value [a; b; c; e]))
          with (le_bytes (length [a; b; c; e]) (le_value [a; b; c; e]));
        rewrite (le_bytes_le_value [a; b; c; e])
    | |- context [le_bytes 2 (le_value [?a; ?b])] =>
        change (le_bytes 2 (le_value [a; b]))
          with (le_bytes (length [a; b]) (le_value [a; b]));
        rewrite (le_bytes_le_value [a; b])
    end.
    reflexivity.
Qed.

Lemma decode_Some_length (bs : list byte) (h : wav_header) :
  decode bs = Some h -> (44 <= length bs)%nat.
Proof.
  unfold decode. rewrite HEADER_SIZE_44.
  destruct (Z.ltb_spec (Z.of_nat (length bs)) 44); [discriminate|lia].
Qed.

Lemma read_header_long (bs : list byte) :
  (44 <= length bs)%nat -> read_header bs = (1%nat, take 44 bs, drop 44 bs).
Proof.
  intros Hlen. unfold read_header, fread. change (Z.to_nat HEADER_SIZE) with 44%nat.
  rewrite Nat.mul_1_r. replace (Nat.min 44 (length bs)) with 44%nat by lia.
  rewrite drop_ge by (rewrite length_calloc; lia).
  rewrite app_nil_r. reflexivity.
Qed.

Lemma read_header_short (bs : list byte) :
  (length bs < 44)%nat ->
  exists buf, read_header bs = (0%nat, buf, []).
Proof.
  intros Hlen. unfold read_header, fread. change (Z.to_nat HEADER_SIZE) with 44%nat.
  rewrite Nat.mul_1_r. replace (Nat.min 44 (length bs)) with (length bs) by lia.
  rewrite Nat.div_small by exact Hlen. rewrite drop_all. eexists. reflexivity.
Qed.

Lemma util_create_file_ok fopen (name : string) (h : wav_header)
    (fp : out_stream) :
  fopen name = Some fp -> (44 <= room fp)%nat ->
  WavUtil.create_file fopen name h
  = inr {| written := written fp ++ encode h; room := (room fp - 44)%nat |}.
Proof.
  intros Hopen Hroom. unfold WavUtil.create_file.
  rewrite Hopen, fwrite_header by exact Hroom. reflexivity.
Qed.

(** X1.  Every 44 bytes read as a header are written back unchanged: the
    header read from [bs] has all its fields within their C types, and
    its image is the first 44 bytes of [bs]. *)
Theorem header_bytes_roundtrip (bs : list byte) :
  (44 <= length bs)%nat ->
  exists h, decode bs = Some h /\ header_ok h /\ encode h = take 44 bs.
Proof.
  intros Hlen. destruct (decode_spec bs Hlen) as (h & H1 & _ & H2 & H3).
  exists h. auto.
Qed.

Lemma header_bytes_roundtrip_witness :
  (44 <= length (replicate 50 x01))%nat
  /\ exists h, decode (replicate 50 x01) = Some h /\ header_ok h
               /\ encode h = take 44 (replicate 50 x01).
Proof.
  assert (H : (44 <= length (replicate 50 x01))%nat)
    by (apply Nat.leb_le; vm_compute; reflexivity).
  split; [exact H|exact (header_bytes_roundtrip _ H)].
Defined.

(** X2.  A file shorter than the 44-byte header is refused by both
    programs before anything is created: the header read returns 0 whole
    items, and that 0 is the count the diagnostic reports, however many
    bytes the file held. *)
Theorem truncated_header_rejected (path : string) fopen_r fopen_w
    (bs : list byte) :
  fopen_r path = Some bs -> (length bs < 44)%nat ->
  WavLook.main [path] fopen_r fopen_w
  = {| status := Some (header_read_failed 0); outputs := [] |}
  /\ WavUtil.main [path] fopen_r fopen_w
     = {| status := Some (header_read_failed 0); outputs := [] |}.
Proof.
  intros Hr Hlen. destruct (read_header_short bs Hlen) as (buf & Hread).
  unfold WavLook.main, WavUtil.main. rewrite Hr, Hread. split; reflexivity.
Qed.

Lemma truncated_header_rejected_witness :
  (length (replicate 43 x01) < 44)%nat
  /\ WavLook.main ["in.wav"%string] (fun _ => Some (replicate 43 x01))
       demo_fopen_w
     = {| status := Some (header_read_failed 0); outputs := [] |}
  /\ WavUtil.main ["in.wav"%string] (fun _ => Some (replicate 43 x01))
       demo_fopen_w
     = {| status := Some (header_read_failed 0); outputs := [] |}.
Proof.
  assert (H : (length (replicate 43 x01) < 44)%nat)
    by (apply Nat.ltb_lt; vm_compute; reflexivity).
  split; [exact H|].
  exact (truncated_header_rejected "in.wav"%string
           (fun _ => Some (replicate 43 x01)) demo_fopen_w _ eq_refl H).
Defined.

(** ** [verify_file] in general *)

Lemma check_tag_false_iff (t : char4) (lit : string) :
  is_tag lit ->
  c_true (strncmp (chars t) (c_literal lit) (Z.to_nat ID_LEN)) = false
  <-> tag_ok t lit.
Proof.
  intros Htag. split.
  - intros Hc.
    destruct Htag as [Hlen Hnz]. unfold c_true, c_literal in Hc.
    change (Z.to_nat ID_LEN) with 4%nat in Hc. rewrite <- (length_chars t) in Hc.
    apply negb_false_iff, Z.eqb_eq, strncmp_zero_iff in Hc; auto.
    now rewrite length_chars.
  - now apply check_tag_match.
Qed.

(** X3.  [verify_file] returns a count between 0 and 4, and it returns 0
    exactly when all four tags are the expected literals: one wrong tag
    is enough for a nonzero result. *)
Theorem verify_file_zero_iff (h : wav_header) :
  0 <= verify_file h <= 4
  /\ (verify_file h = 0 <->
      tag_ok (r_chunkID (r h)) "RIFF" /\ tag_ok (r_format (r h)) "WAVE"
      /\ tag_ok (f_chunkID (f h)) "fmt " /\ tag_ok (d_chunkID (d h)) "data").
Proof.
  destruct is_tag_literals as (T1 & T2 & T3 & T4).
  pose proof (check_tag_false_iff (r_chunkID (r h)) _ T1) as E1.
  pose proof (check_tag_false_iff (r_format (r h)) _ T2) as E2.
  pose proof (check_tag_false_iff (f_chunkID (f h)) _ T3) as E3.
  pose proof (check_tag_false_iff (d_chunkID (d h)) _ T4) as E4.
  unfold verify_file, RIFF_ID, RIFF_FMT, FMT_ID, DATA_ID.
  destruct (c_true (strncmp (chars (r_chunkID (r h))) _ _));
    destruct (c_true (strncmp (chars (r_format (r h))) _ _));
    destruct (c_true (strncmp (chars (f_chunkID (f h))) _ _));
    destruct (c_true (strncmp (chars (d_chunkID (d h))) _ _));
    cbn; (split; [lia|]); split;
    try (intros H; discriminate H);
    try (intros (H1 & H2 & H3 & H4);
         apply E1 in H1; apply E2 in H2; apply E3 in H3; apply E4 in H4;
         congruence);
    intros _; repeat split;
    first [apply E1|apply E2|apply E3|apply E4]; reflexivity.
Qed.

(** X4.  A file whose header has any tag wrong is refused by both
    programs: the run ends with "could not be verified" and no output
    file is created. *)
Theorem unverified_file_rejected (path : string) fopen_r fopen_w
    (bs : list byte) (h : wav_header) :
  fopen_r path = Some bs -> decode bs = Some h -> verify_file h <> 0 ->
  WavLook.main [path] fopen_r fopen_w
  = {| status := Some not_verified; outputs := [] |}
  /\ WavUtil.main [path] fopen_r fopen_w
     = {| status := Some not_verified; outputs := [] |}.
Proof.
  intros Hr Hdec Hver.
  pose proof (decode_Some_length bs h Hdec) as Hlen.
  destruct (decode_spec bs Hlen) as (h' & H1 & H2 & _).
  assert (h' = h) by congruence. subst h'.
  assert (Hc : c_true (verify_file h) = true)
    by (unfold c_true; apply negb_true_iff, Z.eqb_neq; exact Hver).
  unfold WavLook.main, WavUtil.main.
  rewrite Hr, (read_header_long bs Hlen). cbv iota beta.
  change (1 <? 1)%nat with false. cbv iota.
  rewrite H2, Hc. split; reflexivity.
Qed.

Lemma unverified_file_rejected_witness :
  decode (encode bad_tags_header ++ demo_payload) = Some bad_tags_header
  /\ verify_file bad_tags_header <> 0
  /\ WavLook.main ["in.wav"%string]
       (fun _ => Some (encode bad_tags_header ++ demo_payload)) demo_fopen_w
     = {| status := Some not_verified; outputs := [] |}
  /\ WavUtil.main ["in.wav"%string]
       (fun _ => Some (encode bad_tags_header ++ demo_payload)) demo_fopen_w
     = {| status := Some not_verified; outputs := [] |}.
Proof.
  assert (Hd : decode (encode bad_tags_header ++ demo_payload)
               = Some bad_tags_header) by (vm_compute; reflexivity).
  assert (Hv : verify_file bad_tags_header <> 0) by (vm_compute; discriminate).
  split; [exact Hd|]. split; [exact Hv|].
  exact (unverified_file_rejected "in.wav"%string
           (fun _ => Some (encode bad_tags_header ++ demo_payload))
           demo_fopen_w _ _ eq_refl Hd Hv).
Defined.

(** ** Whole runs of [main] *)

(** X5.  wav-util copies its input file byte for byte: for a file with a
    verified header and room in the output, "modified.wav" receives
    exactly the bytes of the input, header included. *)
Theorem wav_util_copies_file (path : string) fopen_r fopen_w
    (bs : list byte) (h : wav_header) (fp : out_stream) :
  fopen_r path = Some bs -> decode bs = Some h -> verify_file h = 0 ->
  fopen_w WavUtil.modified_name = Some fp ->
  (length bs <= room fp)%nat ->
  exists s,
    WavUtil.main [path] fopen_r fopen_w
    = {| status := None; outputs := [(WavUtil.modified_name, s)] |}
    /\ written s = written fp ++ bs
    /\ room s = (room fp - length bs)%nat.
Proof.
  intros Hr Hdec Hver Hw Hroom.
  pose proof (decode_Some_length bs h Hdec) as Hlen.
  destruct (decode_spec bs Hlen) as (h' & H1 & H2 & _ & Henc).
  assert (h' = h) by congruence. subst h'.
  unfold WavUtil.main.
  rewrite Hr, (read_header_long bs Hlen). cbv iota beta.
  change (1 <? 1)%nat with false. cbv iota.
  rewrite H2, Hver. change (c_true 0) with false. cbv iota.
  rewrite (util_create_file_ok fopen_w _ h fp Hw) by lia.
  unfold WavUtil.write_data.
  match goal with
  | |- context [WavUtil.write_loop h ?s] => set (st0 := s)
  end.
  destruct (UtilFacts.util_write_loop_returns h st0)
    as (st' & -> & _ & Hwr & Hrm).
  { subst st0. cbn [WavUtil.original WavUtil.modified room].
    rewrite length_drop. lia. }
  subst st0. cbn [WavUtil.original WavUtil.modified written room] in Hwr, Hrm.
  exists (WavUtil.modified st'). split; [reflexivity|]. split.
  - rewrite Hwr, Henc, <- app_assoc, take_drop. reflexivity.
  - rewrite Hrm, length_drop. lia.
Qed.

Lemma wav_util_copies_file_witness :
  decode (encode (pcm_header 100) ++ demo_payload) = Some (pcm_header 100)
  /\ verify_file (pcm_header 100) = 0
  /\ (length (encode (pcm_header 100) ++ demo_payload) <= 200)%nat
  /\ exists s,
       WavUtil.main ["in.wav"%string] demo_fopen_r demo_fopen_w
       = {| status := None; outputs := [(WavUtil.modified_name, s)] |}
       /\ written s = [] ++ (encode (pcm_header 100) ++ demo_payload)
       /\ room s
          = (200 - length (encode (pcm_header 100) ++ demo_payload))%nat.
Proof.
  assert (Hd : decode (encode (pcm_header 100) ++ demo_payload)
               = Some (pcm_header 100)) by (vm_compute; reflexivity).
  assert (Hv : verify_file (pcm_header 100) = 0) by reflexivity.
  assert (Hroom : (length (encode (pcm_header 100) ++ demo_payload)
                   <= 200)%nat)
    by (apply Nat.leb_le; vm_compute; reflexivity).
  split; [exact Hd|]. split; [exact Hv|]. split; [exact Hroom|].
  exact (wav_util_copies_file "in.wav"%string demo_fopen_r demo_fopen_w
           _ _ {| written := []; room := 200 |} eq_refl Hd Hv eq_refl Hroom).
Defined.

(** X6.  What wav-look leaves in "silence.wav": the 44 header bytes of
    the input unchanged, followed by the payload with the bytes of the
    window zeroed; the file is as long as the input. *)
Theorem wav_look_silence_file (path : string) fopen_r fopen_w
    (bs : list byte) (h : wav_header) (fs fl : out_stream) :
  fopen_r path = Some bs -> decode bs = Some h -> verify_file h = 0 ->
  bytes_per_sample h <> 0 ->
  fopen_w sample_name = Some fs -> fopen_w silence_name = Some fl ->
  (length bs <= room fs)%nat -> (length bs <= room fl)%nat ->
  exists s1 s2,
    WavLook.main [path] fopen_r fopen_w
    = {| status := None;
         outputs := [(sample_name, s1); (silence_name, s2)] |}
    /\ written s2 = written fl ++ take 44 bs ++ silenced h 1 (drop 44 bs)
    /\ length (written s2) = (length (written fl) + length bs)%nat
    /\ length (written s1) = (length (written fs) + length bs)%nat.
Proof.
  intros Hr Hdec Hver Hbps Hws Hwl Hroom1 Hroom2.
  pose proof (decode_Some_length bs h Hdec) as Hlen.
  destruct (decode_spec bs Hlen) as (h' & H1 & H2 & _ & Henc).
  assert (h' = h) by congruence. subst h'.
  unfold WavLook.main.
  rewrite Hr, (read_header_long bs Hlen). cbv iota beta.
  change (1 <? 1)%nat with false. cbv iota.
  rewrite H2, Hver. change (c_true 0) with false. cbv iota.
  rewrite (create_file_sample fopen_w h fs Hws) by lia.
  rewrite (create_file_silence fopen_w h fl Hwl) by lia.
  unfold write_data.
  match goal with |- context [write_loop h ?s] => set (st0 := s) end.
  destruct (LookFacts.look_write_loop_returns h (length (drop 44 bs)) Hbps st0)
    as (st' & -> & _ & Hw1 & Hw2);
    subst st0; cbn [original sample silence data silence_data room];
    try apply length_calloc; try reflexivity;
    try (rewrite length_drop; lia).
  cbn [original sample silence written num_blocks] in Hw1, Hw2.
  exists (sample st'), (silence st').
  split; [reflexivity|]. split; [|split].
  - rewrite Hw2, Henc, <- app_assoc. reflexivity.
  - rewrite Hw2, !length_app, length_encode. unfold silenced.
    rewrite length_imap, length_drop. lia.
  - rewrite Hw1, !length_app, length_encode, length_drop. lia.
Qed.

Lemma wav_look_silence_file_witness :
  decode (encode (pcm_header 100) ++ demo_payload) = Some (pcm_header 100)
  /\ verify_file (pcm_header 100) = 0
  /\ bytes_per_sample (pcm_header 100) <> 0
  /\ (length (encode (pcm_header 100) ++ demo_payload) <= 200)%nat
  /\ exists s1 s2,
       WavLook.main ["in.wav"%string] demo_fopen_r demo_fopen_w
       = {| status := None;
            outputs := [(sample_name, s1); (silence_name, s2)] |}
       /\ written s2
          = [] ++ take 44 (encode (pcm_header 100) ++ demo_payload)
               ++ silenced (pcm_header 100) 1
                    (drop 44 (encode (pcm_header 100) ++ demo_payload))
       /\ length (written s2)
          = (0 + length (encode (pcm_header 100) ++ demo_payload))%nat
       /\ length (written s1)
          = (0 + length (encode (pcm_header 100) ++ demo_payload))%nat.
Proof.
  assert (Hd : decode (encode (pcm_header 100) ++ demo_payload)
               = Some (pcm_header 100)) by (vm_compute; reflexivity).
  assert (Hv : verify_file (pcm_header 100) = 0) by reflexivity.
  assert (Hb : bytes_per_sample (pcm_header 100) <> 0)
    by (vm_compute; discriminate).
  assert (Hroom : (length (encode (pcm_header 100) ++ demo_payload)
                   <= 200)%nat)
    by (apply Nat.leb_le; vm_compute; reflexivity).
  split; [exact Hd|]. split; [exact Hv|]. split; [exact Hb|].
  split; [exact Hroom|].
  exact (wav_look_silence_file "in.wav"%string demo_fopen_r demo_fopen_w
           _ _ {| written := []; room := 200 |} {| written := []; room := 200 |}
           eq_refl Hd Hv Hb eq_refl eq_refl Hroom Hroom).
Defined.

(** ** Edge cases of the copy loops *)

Lemma util_loop_body_eof header st :
  WavUtil.original st = [] ->
  WavUtil.loop_body header st =
  WavUtil.stop
    (WavUtil.returned
       {| WavUtil.original := []; WavUtil.modified := WavUtil.modified st;
          WavUtil.data := WavUtil.data st;
          WavUtil.num_blocks := WavUtil.num_blocks st |}).
Proof.
  intros H0. rewrite UtilFacts.util_loop_body_eq. cbv zeta. rewrite H0.
  cbn [length]. rewrite Nat.min_0_r. cbn [Nat.ltb Nat.leb take drop app].
  reflexivity.
Qed.

(** X7.  On an empty payload both copy loops return at once: nothing is
    written, the block counter stays 0, and wav-look does not evaluate
    the division at all, so even a header with [bitsPerSample < 8] is
    harmless there. *)
Theorem empty_payload_copies_nothing (header : wav_header)
    (sample silence modified : out_stream) :
  (exists st',
     WavLook.write_data header [] sample silence = returned st'
     /\ WavLook.sample st' = sample /\ WavLook.silence st' = silence
     /\ num_blocks st' = 0)
  /\ (exists st',
        WavUtil.write_data header [] modified = WavUtil.returned st'
        /\ WavUtil.modified st' = modified /\ WavUtil.num_blocks st' = 0).
Proof.
  split.
  - unfold WavLook.write_data.
    rewrite LookFacts.look_write_loop_unfold, LookFacts.loop_body_eof
      by reflexivity.
    eexists. repeat split.
  - unfold WavUtil.write_data.
    rewrite UtilFacts.util_write_loop_unfold, util_loop_body_eof
      by reflexivity.
    eexists. repeat split.
Qed.

(** X8.  With a zero bytes-per-sample quotient ([bitsPerSample < 8]) and
    a payload that is not empty, wav-look traps on the division in the
    first pass of the loop, before either output has received a payload
    byte; wav-util, which has no such division, copies the same payload
    whole. *)
Theorem division_by_zero_before_any_write (header : wav_header)
    (payload : list byte) (sample silence modified : out_stream) :
  bytes_per_sample header = 0 -> payload <> [] ->
  (length payload <= room modified)%nat ->
  (exists st',
     WavLook.write_data header payload sample silence
     = exited division_by_zero st'
     /\ WavLook.sample st' = sample /\ WavLook.silence st' = silence)
  /\ (exists st',
        WavUtil.write_data header payload modified = WavUtil.returned st'
        /\ written (WavUtil.modified st') = written modified ++ payload).
Proof.
  intros Hbps Hne Hroom. split.
  - unfold WavLook.write_data.
    rewrite LookFacts.look_write_loop_unfold, LookFacts.look_loop_body_eq.
    cbv zeta.
    cbn [WavLook.original WavLook.sample WavLook.silence WavLook.data
         WavLook.silence_data WavLook.num_blocks].
    assert (Hpos : (0 < length payload)%nat)
      by (destruct payload; [contradiction|cbn; lia]).
    assert (HB : (0 < Z.to_nat BLOCK)%nat) by (unfold BLOCK; lia).
    replace (0 <? Nat.min (Z.to_nat BLOCK) (length payload))%nat with true
      by (symmetry; apply Nat.ltb_lt; lia).
    unfold silence_section. rewrite Hbps. cbn [Z.eqb].
    eexists. repeat split.
  - unfold WavUtil.write_data.
    destruct (UtilFacts.util_write_loop_returns header
                {| WavUtil.original := payload; WavUtil.modified := modified;
                   WavUtil.data := calloc (Z.to_nat BLOCK);
                   WavUtil.num_blocks := 0 |} Hroom)
      as (st' & H0 & _ & H2 & _).
    exists st'. auto.
Qed.

Lemma division_by_zero_before_any_write_witness :
  bytes_per_sample four_bit_header = 0
  /\ demo_payload <> []
  /\ (length demo_payload <= 200)%nat
  /\ (exists st',
        WavLook.write_data four_bit_header demo_payload
          (fresh_file 200) (fresh_file 200)
        = exited division_by_zero st'
        /\ WavLook.sample st' = fresh_file 200
        /\ WavLook.silence st' = fresh_file 200)
  /\ (exists st',
        WavUtil.write_data four_bit_header demo_payload (fresh_file 200)
        = WavUtil.returned st'
        /\ written (WavUtil.modified st')
           = written (fresh_file 200) ++ demo_payload).
Proof.
  assert (Hb : bytes_per_sample four_bit_header = 0) by reflexivity.
  assert (Hne : demo_payload <> []) by discriminate.
  assert (Hroom : (length demo_payload <= 200)%nat)
    by (apply Nat.leb_le; vm_compute; reflexivity).
  split; [exact Hb|]. split; [exact Hne|]. split; [exact Hroom|].
  exact (division_by_zero_before_any_write four_bit_header demo_payload
           (fresh_file 200) (fresh_file 200) (fresh_file 200) Hb Hne Hroom).
Defined.




(** ** More on [silence_section] *)

(** X10.  [silence_section] is exact on the block it is given: within
    the first [BLOCK] bytes, a byte is zero after the call when its
    computed position lies in the window and is the input byte when it
    does not; bytes beyond index [BLOCK] are never touched. *)
Theorem silence_section_exact (data : list byte) (block : Z)
    (h : wav_header) :
  bytes_per_sample h <> 0 ->
  exists out,
    silence_section data block h = Some out
    /\ forall (j : nat) (b : byte), data !! j = Some b ->
         out !! j
         = Some (if (j <? Z.to_nat BLOCK)%nat
                    && in_window h (pos block (Z.of_nat j))
                 then x00 else b).
Proof.
  intros Hb. eexists. split; [apply silence_section_Some, Hb|].
  intros j b Hj. rewrite silence_loop_lookup by lia. rewrite Hj.
  replace ((Z.to_nat 0 <=? j)%nat && (j <? Z.to_nat 0 + Z.to_nat BLOCK)%nat)
    with (j <? Z.to_nat BLOCK)%nat.
  - destruct (_ && _); reflexivity.
  - destruct (Nat.leb_spec (Z.to_nat 0) j),
      (Nat.ltb_spec j (Z.to_nat 0 + Z.to_nat BLOCK)),
      (Nat.ltb_spec j (Z.to_nat BLOCK)); cbn [andb]; try reflexivity; lia.
Qed.

Lemma silence_section_exact_witness :
  bytes_per_sample (pcm_header 20000) <> 0
  /\ exists out,
       silence_section (replicate 4096 x01) 1 (pcm_header 20000) = Some out
       /\ forall (j : nat) (b : byte), replicate 4096 x01 !! j = Some b ->
            out !! j
            = Some (if (j <? Z.to_nat BLOCK)%nat
                       && in_window (pcm_header 20000) (pos 1 (Z.of_nat j))
                    then x00 else b).
Proof.
  assert (Hb : bytes_per_sample (pcm_header 20000) <> 0)
    by (vm_compute; discriminate).
  split; [exact Hb|].
  exact (silence_section_exact (replicate 4096 x01) 1 (pcm_header 20000) Hb).
Defined.

(** X11.  Silencing is idempotent: running [silence_section] again on its
    own output, for the same block index and header, changes nothing. *)
Theorem silence_section_idempotent (data : list byte) (block : Z)
    (h : wav_header) :
  bytes_per_sample h <> 0 ->
  exists out,
    silence_section data block h = Some out
    /\ silence_section out block h = Some out.
Proof.
  intros Hb. exists (silence_loop (Z.to_nat BLOCK) 0 data block h).
  split; [apply silence_section_Some, Hb|].
  rewrite (silence_section_Some _ _ _ Hb). apply (f_equal Some).
  apply list_eq. intros j. rewrite !silence_loop_lookup by lia.
  destruct (_ && _); [|reflexivity].
  destruct (data !! j); reflexivity.
Qed.

Lemma silence_section_idempotent_witness :
  bytes_per_sample (pcm_header 20000) <> 0
  /\ exists out,
       silence_section (replicate 4096 x01) 1 (pcm_header 20000) = Some out
       /\ silence_section out 1 (pcm_header 20000) = Some out.
Proof.
  assert (Hb : bytes_per_sample (pcm_header 20000) <> 0)
    by (vm_compute; discriminate).
  split; [exact Hb|].
  exact (silence_section_idempotent (replicate 4096 x01) 1
           (pcm_header 20000) Hb).
Defined.

Lemma bytes_per_sample_range (h : wav_header) :
  0 <= bytes_per_sample h < 2 ^ 32.
Proof. unfold bytes_per_sample, to_uint32. apply Z.mod_pos_bound. lia. Qed.

(** X12.  The window arithmetic never wraps: for every header with a
    nonzero bytes-per-sample quotient, [num_samples] is the plain
    quotient and is at most the chunk size, the two unsigned sums are the
    plain sums, and the window is well ordered,
    [dstart <= dend < 2^32]. *)
Theorem silence_window_no_wrap (h : wav_header) :
  header_ok h -> bytes_per_sample h <> 0 ->
  num_samples h = d_chunkSize (d h) / bytes_per_sample h
  /\ num_samples h <= d_chunkSize (d h)
  /\ dstart h = num_samples h / 2 + num_samples h / 100
  /\ dend h = num_samples h / 2 + num_samples h / 30
  /\ 0 <= dstart h <= dend h /\ dend h < 2 ^ 32.
Proof.
  intros Hok Hb.
  pose proof (bytes_per_sample_range h) as Hr.
  pose proof (ok_d_chunkSize h Hok) as Hc. unfold is_uint32 in Hc.
  assert (Hq : 0 <= d_chunkSize (d h) / bytes_per_sample h
               <= d_chunkSize (d h)).
  { split; [apply Z.div_pos; lia|]. apply Z.div_le_upper_bound; [lia|nia]. }
  assert (Hns : num_samples h = d_chunkSize (d h) / bytes_per_sample h).
  { unfold num_samples, to_uint32. apply Z.mod_small. lia. }
  assert (Hn : 0 <= num_samples h < 2 ^ 32) by lia.
  assert (Hs : dstart h = num_samples h / 2 + num_samples h / 100).
  { unfold dstart, to_uint32, D_START. apply Z.mod_small.
    revert Hn. generalize (num_samples h). intros x Hx.
    Z.div_mod_to_equations. lia. }
  assert (He : dend h = num_samples h / 2 + num_samples h / 30).
  { unfold dend, to_uint32, D_END. apply Z.mod_small.
    revert Hn. generalize (num_samples h). intros x Hx.
    Z.div_mod_to_equations. lia. }
  split; [exact Hns|]. split; [lia|]. split; [exact Hs|]. split; [exact He|].
  rewrite Hs, He. revert Hn. generalize (num_samples h). intros x Hx.
  Z.div_mod_to_equations. lia.
Qed.

Lemma silence_window_no_wrap_witness :
  header_ok (pcm_header 1000000)
  /\ bytes_per_sample (pcm_header 1000000) <> 0
  /\ num_samples (pcm_header 1000000)
     = d_chunkSize (d (pcm_header 1000000))
       / bytes_per_sample (pcm_header 1000000)
  /\ num_samples (pcm_header 1000000) <= d_chunkSize (d (pcm_header 1000000))
  /\ dstart (pcm_header 1000000)
     = num_samples (pcm_header 1000000) / 2
       + num_samples (pcm_header 1000000) / 100
  /\ dend (pcm_header 1000000)
     = num_samples (pcm_header 1000000) / 2
       + num_samples (pcm_header 1000000) / 30
  /\ 0 <= dstart (pcm_header 1000000) <= dend (pcm_header 1000000)
  /\ dend (pcm_header 1000000) < 2 ^ 32.
Proof.
  assert (Hok : header_ok (pcm_header 1000000))
    by (constructor; unfold is_uint32, is_uint16; cbn; lia).
  assert (Hb : bytes_per_sample (pcm_header 1000000) <> 0)
    by (vm_compute; discriminate).
  split; [exact Hok|]. split; [exact Hb|].
  exact (silence_window_no_wrap (pcm_header 1000000) Hok Hb).
Defined.

(** X13.  The silence stream over a whole run, for any header and any
    payload short enough for positions not to wrap: it grows by the
    length of the payload, and the byte at payload offset [o] is zero
    when [dstart <= o + 4096 <= dend] and the payload byte otherwise. *)
Theorem silence_stream_pointwise (h : wav_header) (payload : list byte)
    (sample silence : out_stream) :
  bytes_per_sample h <> 0 ->
  (length payload <= room sample)%nat ->
  (length payload <= room silence)%nat ->
  Z.of_nat (length payload) + 4096 <= 2 ^ 32 ->
  exists st',
    WavLook.write_data h payload sample silence = returned st'
    /\ length (written (WavLook.silence st'))
       = (length (written silence) + length payload)%nat
    /\ forall (o : nat) (b : byte), payload !! o = Some b ->
         written (WavLook.silence st') !! (length (written silence) + o)%nat
         = Some (if (dstart h <=? Z.of_nat o + 4096)
                    && (Z.of_nat o + 4096 <=? dend h)
                 then x00 else b).
Proof.
  intros Hb Hr1 Hr2 Hlen.
  destruct (write_data_silenced h payload sample silence Hb Hr1 Hr2)
    as (st' & H0 & _ & H2).
  exists st'. split; [exact H0|]. split.
  - rewrite H2, length_app. unfold silenced. rewrite length_imap. reflexivity.
  - intros o b Ho. rewrite H2, lookup_app_r by lia.
    replace (length (written silence) + o - length (written silence))%nat
      with o by lia.
    rewrite (silenced_lookup _ _ _ _ b Ho). f_equal.
    apply lookup_lt_Some in Ho.
    unfold in_window, to_uint32, BLOCK.
    rewrite Z.mod_small by lia.
    replace (1 * 4096 + Z.of_nat o) with (Z.of_nat o + 4096) by lia.
    reflexivity.
Qed.

Lemma silence_stream_pointwise_witness :
  bytes_per_sample (pcm_header 100) <> 0
  /\ (length demo_payload <= room (fresh_file 200))%nat
  /\ Z.of_nat (length demo_payload) + 4096 <= 2 ^ 32
  /\ exists st',
       WavLook.write_data (pcm_header 100) demo_payload
         (fresh_file 200) (fresh_file 200)
       = returned st'
       /\ length (written (WavLook.silence st'))
          = (length (written (fresh_file 200)) + length demo_payload)%nat
       /\ forall (o : nat) (b : byte), demo_payload !! o = Some b ->
            written (WavLook.silence st')
              !! (length (written (fresh_file 200)) + o)%nat
            = Some (if (dstart (pcm_header 100) <=? Z.of_nat o + 4096)
                       && (Z.of_nat o + 4096 <=? dend (pcm_header 100))
                    then x00 else b).
Proof.
  assert (Hb : bytes_per_sample (pcm_header 100) <> 0)
    by (vm_compute; discriminate).
  assert (Hroom : (length demo_payload <= room (fresh_file 200))%nat)
    by (apply Nat.leb_le; vm_compute; reflexivity).
  assert (Hlen : Z.of_nat (length demo_payload) + 4096 <= 2 ^ 32)
    by (vm_compute; discriminate).
  split; [exact Hb|]. split; [exact Hroom|]. split; [exact Hlen|].
  exact (silence_stream_pointwise (pcm_header 100) demo_payload
           (fresh_file 200) (fresh_file 200) Hb Hroom Hroom Hlen).
Defined.

(** ** [create_file] *)

(** On strings without an embedded NUL, [strcmp] is zero exactly when
    the strings are equal. *)
Lemma strcmp_zero_iff (s1 s2 : list byte) :
  Forall (fun c => c <> x00) s1 -> Forall (fun c => c <> x00) s2 ->
  strcmp (s1 ++ [x00]) (s2 ++ [x00]) = 0 <-> s1 = s2.
Proof.
  revert s2. induction s1 as [|a s1 IH]; intros [|b s2] H1 H2.
  - cbn. tauto.
  - apply Forall_cons in H2 as [Hb _].
    cbn [app strcmp char_of]. change (Z_of_byte x00) with 0.
    destruct (Z.eqb_spec 0 (Z_of_byte b)) as [E|E]; cbn [negb].
    + symmetry in E. apply Z_of_byte_x00 in E. contradiction.
    + split; [lia|discriminate].
  - apply Forall_cons in H1 as [Ha _].
    cbn [app strcmp char_of]. change (Z_of_byte x00) with 0.
    destruct (Z.eqb_spec (Z_of_byte a) 0) as [E|E]; cbn [negb].
    + apply Z_of_byte_x00 in E. contradiction.
    + split; [lia|discriminate].
  - apply Forall_cons in H1 as [Ha H1]. apply Forall_cons in H2 as [Hb H2].
    cbn [app strcmp char_of tail].
    destruct (Z.eqb_spec (Z_of_byte a) (Z_of_byte b)) as [E|E]; cbn [negb].
    + apply Z_of_byte_inj in E. subst b.
      destruct (Z.eqb_spec (Z_of_byte a) 0) as [E0|E0].
      * apply Z_of_byte_x00 in E0. contradiction.
      * rewrite (IH s2 H1 H2). split; [now intros ->|now intros [= ->]].
    + split; [lia|]. intros [= -> _]. contradiction.
Qed.

Lemma list_byte_of_string_inj (a b : string) :
  list_byte_of_string a = list_byte_of_string b -> a = b.
Proof.
  intros H. rewrite <- (string_of_list_byte_of_string a),
    <- (string_of_list_byte_of_string b), H. reflexivity.
Qed.

(** X14.  wav-look's [create_file] changes the header for "sample.wav"
    and for no other name: for every other file name (a C string, so
    without an embedded NUL) the header goes out exactly as it came
    in. *)
Theorem create_file_other_name fopen (name : string) (h : wav_header)
    (fp : out_stream) :
  Forall (fun c => c <> x00) (list_byte_of_string name) ->
  name <> "sample.wav"%string ->
  fopen name = Some fp -> (44 <= room fp)%nat ->
  WavLook.create_file fopen name h
  = inr {| written := written fp ++ encode h; room := (room fp - 44)%nat |}.
Proof.
  intros Hnul Hname Hopen Hroom. unfold WavLook.create_file.
  replace (strcmp (c_literal name) (c_literal "sample.wav") =? 0) with false.
  - rewrite Hopen, fwrite_header by exact Hroom. reflexivity.
  - symmetry. apply Z.eqb_neq. unfold c_literal. intros H0.
    apply strcmp_zero_iff in H0.
    + apply list_byte_of_string_inj in H0. contradiction.
    + exact Hnul.
    + vm_compute. repeat constructor; discriminate.
Qed.

Lemma create_file_other_name_witness :
  Forall (fun c => c <> x00) (list_byte_of_string "sample.wa")
  /\ "sample.wa"%string <> "sample.wav"%string
  /\ WavLook.create_file demo_fopen_w "sample.wa" (pcm_header 100)
     = inr {| written := [] ++ encode (pcm_header 100);
              room := (200 - 44)%nat |}.
Proof.
  assert (H1 : Forall (fun c => c <> x00) (list_byte_of_string "sample.wa"))
    by (vm_compute; repeat constructor; discriminate).
  assert (H2 : "sample.wa"%string <> "sample.wav"%string) by discriminate.
  assert (H3 : (44 <= 200)%nat) by lia.
  split; [exact H1|]. split; [exact H2|].
  exact (create_file_other_name demo_fopen_w "sample.wa" (pcm_header 100)
           {| written := []; room := 200 |} H1 H2 eq_refl H3).
Defined.



(** X16.  Halving the sample rate keeps the header within its C types,
    rounds an odd rate down, and changes only the four bytes of the
    sample-rate field: bytes 0..23 and 28..43 of the header written for
    "sample.wav" are those of the header read. *)
Theorem halved_header_bytes (h : wav_header) :
  header_ok h ->
  header_ok (halve_sampleRate h)
  /\ f_sampleRate (f (halve_sampleRate h)) = f_sampleRate (f h) / 2
  /\ take 24 (encode (halve_sampleRate h)) = take 24 (encode h)
  /\ drop 28 (encode (halve_sampleRate h)) = drop 28 (encode h).
Proof.
  intros Hok.
  pose proof (ok_f_sampleRate h Hok) as Hsr. unfold is_uint32 in Hsr.
  assert (Hhalf : to_uint32 (f_sampleRate (f h) / 2) = f_sampleRate (f h) / 2).
  { unfold to_uint32. apply Z.mod_small.
    revert Hsr. generalize (f_sampleRate (f h)). intros x Hx.
    Z.div_mod_to_equations. lia. }
  split; [|split; [exact Hhalf|]].
  - destruct Hok. constructor; cbn [halve_sampleRate r f d f_chunkSize
      f_audioFormat f_numChannels f_sampleRate f_byteRate f_blockAlign
      f_bitsPerSample]; try assumption.
    rewrite Hhalf. unfold is_uint32.
    revert Hsr. generalize (f_sampleRate (f h)). intros x Hx.
    Z.div_mod_to_equations. lia.
  - destruct h as [[rid rsz rfm] [fid fsz faf fnc fsr fbr fba fbs] [did dsz]].
    destruct rid as [[[r0 r1] r2] r3], rfm as [[[w0 w1] w2] w3],
      fid as [[[f0 f1] f2] f3], did as [[[d0 d1] d2] d3].
    unfold encode, encode_riff, encode_fmt, encode_data, chars,
      halve_sampleRate.
    cbn [r f d r_chunkID r_chunkSize r_format f_chunkID f_chunkSize
         f_audioFormat f_numChannels f_sampleRate f_byteRate f_blockAlign
         f_bitsPerSample d_chunkID d_chunkSize le_bytes app take drop
         firstn skipn].
    split; reflexivity.
Qed.

Lemma halved_header_bytes_witness :
  header_ok (pcm_header 100)
  /\ header_ok (halve_sampleRate (pcm_header 100))
  /\ f_sampleRate (f (halve_sampleRate (pcm_header 100)))
     = f_sampleRate (f (pcm_header 100)) / 2
  /\ take 24 (encode (halve_sampleRate (pcm_header 100)))
     = take 24 (encode (pcm_header 100))
  /\ drop 28 (encode (halve_sampleRate (pcm_header 100)))
     = drop 28 (encode (pcm_header 100)).
Proof.
  assert (Hok : header_ok (pcm_header 100))
    by (constructor; unfold is_uint32, is_uint16; cbn; lia).
  split; [exact Hok|exact (halved_header_bytes (pcm_header 100) Hok)].
Defined.

(** X17.  wav-look creates its outputs one after the other: when
    "sample.wav" has been created and "silence.wav" cannot be, the run
    ends naming "silence.wav" and leaves "sample.wav" behind holding the
    44-byte half-speed header and no payload. *)
Theorem silence_create_failure_leaves_sample (path : string)
    fopen_r fopen_w (bs : list byte) (h : wav_header) (fs : out_stream) :
  fopen_r path = Some bs -> decode bs = Some h -> verify_file h = 0 ->
  fopen_w sample_name = Some fs -> (44 <= room fs)%nat ->
  fopen_w silence_name = None ->
  WavLook.main [path] fopen_r fopen_w
  = {| status := Some (create_failed silence_name);
       outputs :=
         [(sample_name,
           {| written := written fs ++ encode (halve_sampleRate h);
              room := (room fs - 44)%nat |})] |}.
Proof.
  intros Hr Hdec Hver Hws Hroom Hwl.
  pose proof (decode_Some_length bs h Hdec) as Hlen.
  destruct (decode_spec bs Hlen) as (h' & H1 & H2 & _).
  assert (h' = h) by congruence. subst h'.
  unfold WavLook.main.
  rewrite Hr, (read_header_long bs Hlen). cbv iota beta.
  change (1 <? 1)%nat with false. cbv iota.
  rewrite H2, Hver. change (c_true 0) with false. cbv iota.
  rewrite (create_file_sample fopen_w h fs Hws Hroom).
  unfold WavLook.create_file at 1. rewrite Hwl. reflexivity.
Qed.

Lemma silence_create_failure_leaves_sample_witness :
  decode (encode (pcm_header 100) ++ demo_payload) = Some (pcm_header 100)
  /\ verify_file (pcm_header 100) = 0
  /\ WavLook.main ["in.wav"%string] demo_fopen_r
       (fun name => if String.eqb name sample_name
                    then Some (fresh_file 200) else None)
     = {| status := Some (create_failed silence_name);
          outputs :=
            [(sample_name,
              {| written := written (fresh_file 200)
                            ++ encode (halve_sampleRate (pcm_header 100));
                 room := (room (fresh_file 200) - 44)%nat |})] |}.
Proof.
  assert (Hd : decode (encode (pcm_header 100) ++ demo_payload)
               = Some (pcm_header 100)) by (vm_compute; reflexivity).
  assert (Hv : verify_file (pcm_header 100) = 0) by reflexivity.
  assert (Hroom : (44 <= room (fresh_file 200))%nat)
    by (apply Nat.leb_le; vm_compute; reflexivity).
  split; [exact Hd|]. split; [exact Hv|].
  exact (silence_create_failure_leaves_sample "in.wav"%string demo_fopen_r
           (fun name => if String.eqb name sample_name
                        then Some (fresh_file 200) else None)
           _ _ (fresh_file 200) eq_refl Hd Hv eq_refl Hroom eq_refl).
Defined.

(** ** The block counter *)

Lemma to_int_small (z : Z) : - 2 ^ 31 <= z < 2 ^ 31 -> to_int z = z.
Proof. intros Hz. unfold to_int. rewrite Z.mod_small by lia. lia. Qed.

(** Number of blocks of [BLOCK] bytes that [n] bytes take, the last one
    possibly short. *)
Lemma blocks_step (n : nat) :
  (0 < n)%nat ->
  (Z.of_nat n + 4095) / 4096
  = 1 + (Z.of_nat (n - Nat.min (Z.to_nat BLOCK) n) + 4095) / 4096.
Proof.
  intros Hn. unfold BLOCK.
  destruct (Nat.le_gt_cases n (Z.to_nat 4096)) as [Hle|Hgt].
  - replace (n - Nat.min (Z.to_nat 4096) n)%nat with 0%nat by lia.
    change ((Z.of_nat 0 + 4095) / 4096) with 0.
    assert (0 < Z.of_nat n <= 4096) by lia.
    Z.div_mod_to_equations. lia.
  - replace (Z.of_nat (n - Nat.min (Z.to_nat 4096) n))
      with (Z.of_nat n - 4096) by lia.
    Z.div_mod_to_equations. lia.
Qed.

Lemma util_block_count header (n : nat) :
  forall st,
  length (WavUtil.original st) = n ->
  (length (WavUtil.original st) <= room (WavUtil.modified st))%nat ->
  0 <= WavUtil.num_blocks st ->
  WavUtil.num_blocks st + (Z.of_nat n + 4095) / 4096 < 2 ^ 31 ->
  exists st',
    WavUtil.write_loop header st = WavUtil.returned st'
    /\ WavUtil.num_blocks st'
       = WavUtil.num_blocks st + (Z.of_nat n + 4095) / 4096.
Proof.
  induction (lt_wf n) as [n _ IH]. intros st Hn Hroom Hnb Hmax.
  rewrite UtilFacts.util_write_loop_unfold.
  destruct (WavUtil.original st) as [|c rest] eqn:Eorig.
  - rewrite (util_loop_body_eof header st Eorig). cbn [length] in Hn. subst n.
    eexists. split; [reflexivity|]. cbn [WavUtil.num_blocks].
    change ((Z.of_nat 0 + 4095) / 4096) with 0. lia.
  - rewrite <- Eorig in *.
    assert (Hpos : (0 < n)%nat) by (rewrite <- Hn, Eorig; cbn; lia).
    assert (HB : (0 < Z.to_nat BLOCK)%nat) by (unfold BLOCK; lia).
    rewrite UtilFacts.util_loop_body_eq. cbv zeta. rewrite Hn.
    remember (Nat.min (Z.to_nat BLOCK) n) as k eqn:Ek.
    replace (0 <? k)%nat with true by (symmetry; apply Nat.ltb_lt; lia).
    replace (Nat.min k (room (WavUtil.modified st))) with k by lia.
    rewrite Nat.eqb_refl. cbn [negb].
    pose proof (blocks_step n Hpos) as Hstep. rewrite <- Ek in Hstep.
    assert (Hge : 0 <= (Z.of_nat (n - k) + 4095) / 4096)
      by (apply Z.div_pos; lia).
    match goal with
    | |- context [WavUtil.write_loop header ?s] => set (st1 := s)
    end.
    destruct (IH (n - k)%nat) with (st := st1) as (st2 & -> & H2).
    + lia.
    + subst st1. cbn [WavUtil.original]. rewrite length_drop. lia.
    + subst st1. cbn [WavUtil.original WavUtil.modified room].
      rewrite length_drop. lia.
    + subst st1. cbn [WavUtil.num_blocks]. rewrite to_int_small by lia. lia.
    + subst st1. cbn [WavUtil.num_blocks]. rewrite to_int_small by lia. lia.
    + exists st2. split; [reflexivity|]. rewrite H2.
      subst st1. cbn [WavUtil.num_blocks]. rewrite to_int_small by lia. lia.
Qed.

Lemma look_block_count header (n : nat) :
  bytes_per_sample header <> 0 ->
  forall st,
  length (original st) = n ->
  length (data st) = Z.to_nat BLOCK ->
  length (silence_data st) = Z.to_nat BLOCK ->
  (length (original st) <= room (sample st))%nat ->
  (length (original st) <= room (silence st))%nat ->
  0 <= num_blocks st ->
  num_blocks st + (Z.of_nat n + 4095) / 4096 < 2 ^ 31 ->
  exists st',
    write_loop header st = returned st'
    /\ num_blocks st' = num_blocks st + (Z.of_nat n + 4095) / 4096.
Proof.
  intros Hbps. induction (lt_wf n) as [n _ IH].
  intros st Hn Hdata Hsdata Hr1 Hr2 Hnb Hmax.
  rewrite LookFacts.look_write_loop_unfold.
  destruct (original st) as [|c rest] eqn:Eorig.
  - rewrite (LookFacts.loop_body_eof header st Eorig).
    cbn [length] in Hn. subst n.
    eexists. split; [reflexivity|]. cbn [num_blocks].
    change ((Z.of_nat 0 + 4095) / 4096) with 0. lia.
  - rewrite <- Eorig in *.
    assert (Hne : original st <> []) by (rewrite Eorig; discriminate).
    assert (Hpos : (0 < n)%nat) by (rewrite <- Hn, Eorig; cbn; lia).
    assert (HB : (0 < Z.to_nat BLOCK)%nat) by (unfold BLOCK; lia).
    destruct (LookFacts.loop_body_copies header st Hbps Hdata Hsdata Hne)
      as (buf & sbuf & Hbuf & Hsbuf & ->); [lia|lia|].
    rewrite Hn.
    remember (Nat.min (Z.to_nat BLOCK) n) as k eqn:Ek.
    pose proof (blocks_step n Hpos) as Hstep. rewrite <- Ek in Hstep.
    assert (Hge : 0 <= (Z.of_nat (n - k) + 4095) / 4096)
      by (apply Z.div_pos; lia).
    match goal with |- context [write_loop header ?s] => set (st1 := s) end.
    destruct (IH (n - k)%nat) with (st := st1) as (st2 & -> & H2).
    + lia.
    + subst st1. cbn [original]. rewrite length_drop. lia.
    + exact Hbuf.
    + exact Hsbuf.
    + subst st1. cbn [original sample room]. rewrite length_drop. lia.
    + subst st1. cbn [original silence room]. rewrite length_drop. lia.
    + subst st1. cbn [num_blocks]. rewrite to_int_small by lia. lia.
    + subst st1. cbn [num_blocks]. rewrite to_int_small by lia. lia.
    + exists st2. split; [reflexivity|]. rewrite H2.
      subst st1. cbn [num_blocks]. rewrite to_int_small by lia. lia.
Qed.

(** X18.  After a complete copy the block counter of either program is
    the number of 4096-byte blocks the payload takes, a final short block
    counted as one: [(length + 4095) / 4096] (for any payload whose block
    count fits an [int]). *)
Theorem block_counter_counts_blocks (header : wav_header)
    (payload : list byte) :
  (Z.of_nat (length payload) + 4095) / 4096 < 2 ^ 31 ->
  (forall modified : out_stream,
     (length payload <= room modified)%nat ->
     exists st',
       WavUtil.write_data header payload modified = WavUtil.returned st'
       /\ WavUtil.num_blocks st'
          = (Z.of_nat (length payload) + 4095) / 4096)
  /\ (forall sample silence : out_stream,
        bytes_per_sample header <> 0 ->
        (length payload <= room sample)%nat ->
        (length payload <= room silence)%nat ->
        exists st',
          WavLook.write_data header payload sample silence = returned st'
          /\ num_blocks st' = (Z.of_nat (length payload) + 4095) / 4096).
Proof.
  intros Hmax. split.
  - intros modified Hroom. unfold WavUtil.write_data.
    destruct (util_block_count header (length payload)
                {| WavUtil.original := payload; WavUtil.modified := modified;
                   WavUtil.data := calloc (Z.to_nat BLOCK);
                   WavUtil.num_blocks := 0 |} eq_refl Hroom)
      as (st' & H0 & H1); cbn [WavUtil.num_blocks]; try lia.
    exists st'. split; [exact H0|]. rewrite H1. cbn [WavUtil.num_blocks]. lia.
  - intros sample silence Hbps Hr1 Hr2. unfold WavLook.write_data.
    destruct (look_block_count header (length payload) Hbps
                {| original := payload; sample := sample; silence := silence;
                   data := calloc (Z.to_nat BLOCK);
                   silence_data := calloc (Z.to_nat BLOCK);
                   num_blocks := 0 |} eq_refl)
      as (st' & H0 & H1);
      cbn [WavLook.num_blocks WavLook.original WavLook.sample WavLook.silence
           WavLook.data WavLook.silence_data];
      try apply length_calloc; try assumption; try lia.
    exists st'. split; [exact H0|]. rewrite H1. cbn [WavLook.num_blocks]. lia.
Qed.

Lemma block_counter_counts_blocks_witness :
  (Z.of_nat (length odd_payload) + 4095) / 4096 < 2 ^ 31
  /\ (length odd_payload <= room (fresh_file 20000))%nat
  /\ exists st',
       WavUtil.write_data (pcm_header 12325) odd_payload (fresh_file 20000)
       = WavUtil.returned st'
       /\ WavUtil.num_blocks st'
          = (Z.of_nat (length odd_payload) + 4095) / 4096.
Proof.
  assert (Hmax : (Z.of_nat (length odd_payload) + 4095) / 4096 < 2 ^ 31)
    by (vm_compute; reflexivity).
  assert (Hroom : (length odd_payload <= room (fresh_file 20000))%nat)
    by (apply Nat.leb_le; vm_compute; reflexivity).
  split; [exact Hmax|]. split; [exact Hroom|].
  exact (proj1 (block_counter_counts_blocks (pcm_header 12325) odd_payload
                  Hmax) (fresh_file 20000) Hroom).
Defined.

(** ** "sample.wav" as a function of the input bytes *)

Lemma encode_halve_bytes (h : wav_header) :
  encode (halve_sampleRate h)
  = take 24 (encode h)
      ++ le_bytes 4 (to_uint32 (f_sampleRate (f h) / 2))
      ++ drop 28 (encode h).
Proof.
  destruct h as [[rid rsz rfm] [fid fsz faf fnc fsr fbr fba fbs] [did dsz]].
  destruct rid as [[[r0 r1] r2] r3], rfm as [[[w0 w1] w2] w3],
    fid as [[[f0 f1] f2] f3], did as [[[d0 d1] d2] d3].
  unfold encode, encode_riff, encode_fmt, encode_data, chars,
    halve_sampleRate.
  cbn [r f d r_chunkID r_chunkSize r_format f_chunkID f_chunkSize
       f_audioFormat f_numChannels f_sampleRate f_byteRate f_blockAlign
       f_bitsPerSample d_chunkID d_chunkSize le_bytes app take drop
       firstn skipn].
  reflexivity.
Qed.

(** X19.  What wav-look leaves in "sample.wav": the input file with only
    bytes 24..27 replaced, by the little-endian image of half the sample
    rate read from those same bytes; everything else, header and
    payload, is the input byte for byte. *)
Theorem wav_look_sample_file (path : string) fopen_r fopen_w
    (bs : list byte) (h : wav_header) (fs fl : out_stream) :
  fopen_r path = Some bs -> decode bs = Some h -> verify_file h = 0 ->
  bytes_per_sample h <> 0 ->
  fopen_w sample_name = Some fs -> fopen_w silence_name = Some fl ->
  (length bs <= room fs)%nat -> (length bs <= room fl)%nat ->
  exists s1 s2,
    WavLook.main [path] fopen_r fopen_w
    = {| status := None;
         outputs := [(sample_name, s1); (silence_name, s2)] |}
    /\ f_sampleRate (f h) = le_value (take 4 (drop 24 bs))
    /\ written s1
       = written fs
           ++ take 24 bs
           ++ le_bytes 4 (le_value (take 4 (drop 24 bs)) / 2)
           ++ drop 28 bs.
Proof.
  intros Hr Hdec Hver Hbps Hws Hwl Hroom1 Hroom2.
  pose proof (decode_Some_length bs h Hdec) as Hlen.
  destruct (decode_spec bs Hlen) as (h' & H1 & H2 & Hok & Henc).
  assert (h' = h) by congruence. subst h'.
  assert (Hsr : f_sampleRate (f h) = le_value (take 4 (drop 24 bs))).
  { unfold decode in Hdec.
    destruct (Z.of_nat (length bs) <? HEADER_SIZE); [discriminate|].
    injection Hdec as <-. reflexivity. }
  assert (Hhalf : to_uint32 (f_sampleRate (f h) / 2) = f_sampleRate (f h) / 2).
  { pose proof (ok_f_sampleRate h Hok) as Hx. unfold is_uint32 in Hx.
    unfold to_uint32. apply Z.mod_small.
    revert Hx. generalize (f_sampleRate (f h)). intros x Hx.
    Z.div_mod_to_equations. lia. }
  unfold WavLook.main.
  rewrite Hr, (read_header_long bs Hlen). cbv iota beta.
  change (1 <? 1)%nat with false. cbv iota.
  rewrite H2, Hver. change (c_true 0) with false. cbv iota.
  rewrite (create_file_sample fopen_w h fs Hws) by lia.
  rewrite (create_file_silence fopen_w h fl Hwl) by lia.
  unfold write_data.
  match goal with |- context [write_loop h ?s] => set (st0 := s) end.
  destruct (LookFacts.look_write_loop_returns h (length (drop 44 bs)) Hbps st0)
    as (st' & -> & _ & Hw1 & _);
    subst st0; cbn [original sample silence data silence_data room];
    try apply length_calloc; try reflexivity;
    try (rewrite length_drop; lia).
  cbn [original sample silence written num_blocks] in Hw1.
  exists (sample st'), (silence st').
  split; [reflexivity|]. split; [exact Hsr|].
  rewrite Hw1, encode_halve_bytes, Hhalf, Henc, <- Hsr.
  rewrite <- !app_assoc. rewrite take_take, drop_take_drop by lia.
  reflexivity.
Qed.

Lemma wav_look_sample_file_witness :
  decode (encode (pcm_header 100) ++ demo_payload) = Some (pcm_header 100)
  /\ verify_file (pcm_header 100) = 0
  /\ bytes_per_sample (pcm_header 100) <> 0
  /\ (length (encode (pcm_header 100) ++ demo_payload) <= 200)%nat
  /\ exists s1 s2,
       WavLook.main ["in.wav"%string] demo_fopen_r demo_fopen_w
       = {| status := None;
            outputs := [(sample_name, s1); (silence_name, s2)] |}
       /\ f_sampleRate (f (pcm_header 100))
          = le_value (take 4 (drop 24 (encode (pcm_header 100)
                                         ++ demo_payload)))
       /\ written s1
          = [] ++ take 24 (encode (pcm_header 100) ++ demo_payload)
               ++ le_bytes 4
                    (le_value (take 4 (drop 24 (encode (pcm_header 100)
                                                  ++ demo_payload))) / 2)
               ++ drop 28 (encode (pcm_header 100) ++ demo_payload).
Proof.
  assert (Hd : decode (encode (pcm_header 100) ++ demo_payload)
               = Some (pcm_header 100)) by (vm_compute; reflexivity).
  assert (Hv : verify_file (pcm_header 100) = 0) by reflexivity.
  assert (Hb : bytes_per_sample (pcm_header 100) <> 0)
    by (vm_compute; discriminate).
  assert (Hroom : (length (encode (pcm_header 100) ++ demo_payload)
                   <= 200)%nat)
    by (apply Nat.leb_le; vm_compute; reflexivity).
  split; [exact Hd|]. split; [exact Hv|]. split; [exact Hb|].
  split; [exact Hroom|].
  exact (wav_look_sample_file "in.wav"%string demo_fopen_r demo_fopen_w
           _ _ {| written := []; room := 200 |} {| written := []; room := 200 |}
           eq_refl Hd Hv Hb eq_refl eq_refl Hroom Hroom).
Defined.

(** ** wav-look on a device that fills up *)







